(* ===== verification/_CoqProject ===== *)
-Q . S2P
Spec2Rocq.v
JsString.v
Promise.v
PdfJs.v
Extract.v
Answer.v
PdfUtils.v
App.v
View.v
Page.v
Console.v
Effect.v
Gating.v
