(* ===== verification/Spec2Rocq.v ===== *)
(** * PDF-AI-Chatbot: a verification development

    The program (src/src/) is a browser chat front end written in
    TypeScript/React.  It has three parts:

    - [src/src/utils/pdfUtils.ts]: two asynchronous functions.
      [extractTextFromPDF] opens a byte buffer with pdf.js, walks the pages
      [1..numPages] in order, joins the [str] of each page's text items with
      a space, appends every page followed by one space to an accumulator
      ([fullText += pageText + ' ']) and returns [fullText.trim()]; any
      rejection is replaced by [Error('Failed to extract text from PDF')].
      [getAnswerFromAI] builds a prompt from the document text and the
      question, sends it to the Gemini model and returns the response text,
      or a fixed fallback sentence when the text is empty or anything throws.
      The module initialisation (lines 4-11) builds the model client once.
    - [src/src/App.tsx]: the React component.  Its state is
      [pdfContent], [messages], [question] and [isLoading]; its handlers are
      [handleFileUpload] and [handleSubmit], each of which runs up to an
      [await], yields to the event loop, and finishes when the awaited
      promise settles.  The [disabled] attributes of the upload button, the
      text input and the send button gate which events the browser can
      deliver.
    - [src/src/components/ChatMessage.tsx]: a presentational component
      rendering one message (not used by [App], which renders messages
      inline).

    ** Files, in dependency order

    - [Spec2Rocq.v] (this file): the prelude shared by every file: the
      [pdfchat_scope] notation scope (which [JsString] fills with [||js],
      the [||] of strings), the [pdfchat] hint database and the
      [pdfchat_rw] rewrite database, the side-condition tactic
      [solve_side], and generic list and integer lemmas.
    - [JsString.v]: the ECMAScript string semantics the code relies on.
      A JS string is a list of UTF-16 code units ([list Z]); [trim] is
      String.prototype.trim over the exact WhiteSpace/LineTerminator set of
      ECMA-262; [js_join] is Array.prototype.join (undefined elements print
      as the empty string); [truthy] is string truthiness.  [trim_spec]
      shows that [trim] is the function of its declarative contract
      [trimmed_of] (white space removed at both ends and nowhere else).
    - [Promise.v]: the settled outcome of an awaited promise
      ([Resolved]/[Rejected]) as a monad (stdpp's [MRet]/[MBind], so the
      code reads [x ← m; k] as [const x = await m; k]), [try_catch] for
      [try { } catch { }], and its laws.
    - [PdfJs.v]: the part of pdf.js the program calls, as a type class
      [PdfJsLib] (getDocument, numPages, getPage, getTextContent) with the
      text item union [TextItem | TextMarkedContent]; and [MemPdf], a
      concrete in-memory instance used by the witnesses.
    - [Extract.v]: [extractTextFromPDF] as written (the [for] loop as a
      fuelled [Fixpoint] with the code's guard [i <= numPages]), the
      reference specification [extract_spec] (trim of the page texts
      joined by single spaces) and the refinement theorem between them.
    - [Answer.v]: the prompt template, the Gemini SDK surface
      ([GenerativeModel], [generateContent], [response.text()]) and
      [getAnswerFromAI] with its try/catch and [text || fallback].
    - [PdfUtils.v]: the interface [PdfUtilsApi] that [App] relies on
      (a type class with its laws: extraction results are trimmed and its
      errors opaque, answering never rejects), and the instance built from
      [Extract] and [Answer] that discharges it.
    - [App.v] ([Module App]): the React component as a state machine.
      [AppState] holds the four [useState] cells and the list of
      suspended handler invocations; each handler is split at each of its
      [await]s: [handleFileUpload_start] (up to [file.arrayBuffer()]),
      [handleFileUpload_buffer] (up to [extractTextFromPDF(buffer)]),
      [handleFileUpload_extract] (the rest), [handleSubmit_start] and
      [handleSubmit_settle]; [dispatch] delivers an event only to an
      enabled element (the gating functions [uploadButtonDisabled],
      [inputDisabled], [submitDisabled]); [app_step] is the step relation
      and [reachable] its closure from [initialState].  All of it is
      proved against [PdfUtilsApi]; the witnesses instantiate it with
      [pdfUtils] over [MemPdf].
    - [View.v]: the JSX of [App] (lines 89-169, [renderApp]) and the
      unused [ChatMessage] component as a virtual DOM: elements with
      their props ([className], [type], [accept], [value], [placeholder],
      [disabled], [ref], [key] and the handler props), icons and text;
      the message rows ([renderMessage], [key={index}]) and the button
      labels.
    - [Page.v]: the browser around the rendered page.  A [Page] is the
      state of [App] with the files selected in the hidden file input and
      whether the file dialog is open; [deliver] is one user action: the
      target element is found in [renderApp] by its props, a disabled
      element receives nothing, the handler its prop names runs;
      [fileInputRef.current?.click()] opens the (modal) file dialog; the
      file input fires [change] only when the chosen file differs from the
      selected one (compared by path, [File.name]); Enter submits through
      the form's default button.  [page_reachable] is the closure of
      [page_step] from [initialPage].
    - [Console.v]: the four [console.error] calls (pdfUtils.ts lines 29
      and 47, App.tsx lines 34 and 71).  The monad [logged] pairs the
      console entries a call wrote, in order, with its settled outcome
      (an error monad over a writer); [extractTextFromPDF_io] and
      [getAnswerFromAI_io] are the two functions of pdfUtils.ts with
      their logging, written over the same [try] blocks [extract_try] and
      [answer_try] as [Extract.v] and [Answer.v];
      [handleFileUpload_io] and [handleSubmit_io] are the console side of
      one run of each handler, whose state side is [App.v].
    - [Effect.v]: the scroll effect of lines 85-87.  A [Mounted]
      component is a [Page] with an identity for the array the
      [messages] cell holds (fresh for every action whose handler part
      calls [setMessages], since every call builds a new array:
      [action_writes], [resume_writes]) and the identity the effect last
      ran with; [commit] runs the effect when the two differ, as React's
      [Object.is] test on the dependency list [[messages]] does; the
      effect finds the marker [<div ref={messagesEndRef} />] in
      [renderApp] and scrolls it into view, recorded as the transcript
      shown above it.
    - [Gating.v]: the handlers delivered without the [disabled]
      attributes ([dispatch_ungated]), a comparison and not a model of
      the program, to show which part of [app_inv] the attributes
      carry.

    ** What is proved

    - Extraction ([Extract]): the code refines the contract of the spec
      ([extractTextFromPDF_refines]); the loop's fuel is enough and extra
      fuel changes nothing ([extract_pages_fuel]); the loop asks pdf.js
      only for pages [1..numPages], whatever the fuel
      ([extract_pages_reads_in_range]); every failure of getDocument,
      getPage or getTextContent yields exactly the opaque error;
      extraction succeeds exactly when the document opens and every page
      reads, and the error of the first unreadable page is the one the
      [try] block rejects with; the result is trimmed, and is exactly the
      joined page text with white space removed at both ends only
      ([extract_strips_only_edge_whitespace]: nothing visible is lost
      or reordered); marked-content
      items add an empty string to the join.
    - Answering ([Answer]): the function never rejects; it returns the
      model text verbatim when non-empty, the fallback sentence on an empty
      text and on any error, and nothing else; the prompt determines the
      context given the question and the question given the context, but
      is not injective (a document can forge the question).
    - Console: logging does not change how the functions settle (the
      outcomes of the [_io] functions are [extractTextFromPDF] and
      [getAnswerFromAI]); a failed extraction logs the error of its first
      unreadable page and rejects with the opaque error; an answer
      request logs exactly its request or [text()] error, and an empty
      text falls back without a log entry; one upload logs nothing, the
      file's error, or the extraction's cause followed by the opaque
      error, in that order; a submission never logs its own label; and,
      composed with [App] over the real [pdfUtils], the screen and the
      console agree on every upload (success shown exactly when nothing
      is logged, the error shown exactly when the last entry is the
      handler's own).
    - Effect: the effect sets no state, so the mounted component shows
      the pages of [Page.v]; after every action the last transcript
      scrolled into view is the current one; an action scrolls exactly
      when its handler called [setMessages], so a second failed upload
      scrolls although the transcript's value is unchanged, and typing
      never scrolls; the marker is rendered in every state, so the
      optional chaining [current?.] never skips the call.
    - Gating: neither handler checks [isLoading]; with the [disabled]
      attributes a second upload is not delivered while one is in
      flight, without them the first upload's [finally] clears the busy
      flag with the second extraction still awaited.
    - App: an invariant [app_inv] proved for every reachable state by rule
      induction ([reachable_inv]): the busy flag is set exactly while a
      handler is suspended and at most one is; the transcript is a bot
      header followed by user/bot pairs in interaction order; while no
      text is loaded the transcript has no user message; the loaded text
      is trimmed; no bubble of the transcript is empty or blank; a request
      in flight carries the loaded, non-empty document text and a
      non-blank question (the invariant of section 3 of the spec).  This
      last part rests on the interface law that answers are non-empty,
      which [getAnswerFromAI] discharges.  Functional theorems for each
      handler on each branch (one question round, upload success, upload
      failure at either await, blank PDF, the guard of [handleSubmit]);
      the document text is written only by a successful extraction
      ([pdfContent_written_by_extraction], section 5 of the spec);
      the guard branch and the [catch] of [handleSubmit] are unreachable
      from the UI; every reachable state settles back to idle within two
      steps; composed with the real [pdfUtils] over any pdf.js, an upload
      stores exactly the text section 8 prescribes
      ([upload_stores_extracted_text]); the end-to-end scenario of
      section 8.
    - View: the rendered list determines the transcript (a roundtrip);
      its rows carry distinct React keys; App's rows equal
      [<ChatMessage key={i} .../>] up to the icons; the buttons read
      "Processing..." exactly while a handler is suspended.
    - Page: the page refines [App] by a stuttering simulation
      ([deliver_sim], in the style of a simulation diagram): every state
      of a reachable page has a reachable [App] state, so the invariants
      above hold of what the browser shows ([page_refines_app]); the
      [disabled] props of [renderApp] gate the actions exactly as
      [App.dispatch] does ([page_gating_is_dispatch]); re-choosing the
      selected file runs no handler ([retry_same_file_ignored]); the
      section 8 scenario through clicks, the dialog and Enter ends in the
      state [App] computes.

    ** Findings (see PROJECT.json)

    The transcript is replaced, not appended to, on every upload; asking
    before an upload does nothing (the controls are disabled) where the
    spec wants a prompt message; a failed upload keeps the previous
    document; a PDF without text is reported as ready for questions while
    the input stays disabled; after a failed upload, choosing the same
    file again does nothing, because the file input is never cleared; the
    prompt does not delimit the document; the [catch] of [handleSubmit]
    is dead code; the cause of a failed extraction reaches only the
    console, and an empty model answer falls back without a log entry;
    mutual exclusion of the handlers rests only on the [disabled]
    attributes.

    ** Fuel

    The page loop is a [Fixpoint] on a [nat] fuel; the code runs it with
    fuel [Z.to_nat (numPages pdf)], which is exactly the number of
    iterations of [for (let i = 1; i <= pdf.numPages; i++)];
    [Extract.extract_pages_fuel] shows that any larger fuel gives the same
    result, and [Extract.extract_pages_spec] that this fuel reads every
    page, so the bound is enough.  No other definition needs fuel.

    ** Browser assumptions of [Page.v]

    Taken from the HTML Standard: the file dialog is modal (only choosing
    or cancelling reaches the page while it is open; promises still
    settle); cancelling fires no [change]; a [change] fires only for a new
    selection.  Under these the [if (!file) return] branch of
    [handleFileUpload] is not reached from the page (browsers that clear
    the selection on cancel do reach it).  React flushes the state
    updates of a click or submit before the next event, so each handler
    part is one atomic step.

    ** Not modelled

    - the format in which the browser prints a console entry (the
      entries are kept as the label and the [Error] value passed);
    - the geometry of scrolling: [scrollIntoView] is recorded as the
      transcript brought into view, not as pixel offsets, and the
      [smooth] behaviour (an animation) is not modelled; nor is the
      user's own scrolling, which the code does not observe;
    - React's development-only double run of effects under
      [StrictMode] (no entry point is in src/);
    - CSS: class names are kept as strings, their styling is not modelled;
    - the internals of pdf.js (parsing of PDF bytes) and of the Gemini
      service: both are parameters ([PdfJsLib], [GenerativeModel]);
    - the worker set-up of pdf.js ([GlobalWorkerOptions.workerSrc],
      a URL resolved by the bundler), which does not change what the
      calls return.

    ** Plan for the next sittings

    - the cancel behaviour of browsers that clear the selection, which
      reaches the [if (!file) return] branch and would let a failed file
      be chosen again;
    - the URL resolution of the worker path (lines 5-8), for a parsed
      [import.meta.url], if the bundler's rewriting is taken into
      account.
*)

From stdpp Require Import base list.
From Stdlib Require Import ZArith Lia.

(** ** Notation scope of the development *)

Declare Scope pdfchat_scope.
Delimit Scope pdfchat_scope with pdfchat.

(** ** Hint database *)

Create HintDb pdfchat discriminated.
Create Rewrite HintDb pdfchat_rw.

(** ** Tactics *)

(** Close a side condition by computation or by the development's hints. *)
Ltac solve_side := first [done | eauto with pdfchat | lia].

(** ** Generic list lemmas shared by the string and transcript files *)

Section ListFacts.
Context {A : Type}.

Lemma reverse_eq_nil (l : list A) : reverse l = [] ↔ l = [].
Proof.
  split; [|intros ->; reflexivity].
  intros H. rewrite <- (reverse_involutive l), H. reflexivity.
Qed.
End ListFacts.

(** ** Integer comparisons in rewriting form *)

Lemma Z_leb_true (x y : Z) : (x <= y)%Z → (x <=? y)%Z = true.
Proof. apply Z.leb_le. Qed.

Lemma Z_leb_false (x y : Z) : (y < x)%Z → (x <=? y)%Z = false.
Proof. apply Z.leb_gt. Qed.

#[export] Hint Resolve Z_leb_true Z_leb_false : pdfchat.
#[export] Hint Rewrite @reverse_app @reverse_involutive @reverse_cons : pdfchat_rw.

(** ** [mapM] over [imap] *)

Lemma mapM_imap_Some {A B} (f : nat → A → B) (g : B → option A) (l : list A) :
  (∀ i x, g (f i x) = Some x) → mapM g (imap f l) = Some l.
Proof.
  revert f. induction l as [|x l IH]; intros f Hf; [done|].
  rewrite imap_cons. simpl. rewrite Hf. simpl. rewrite (IH (f ∘ S)); [done|].
  intros i y. apply Hf.
Qed.

Lemma omap_fmap_Some {A B} (f : A → option B) (l : list A) (k : list B) :
  f <$> l = Some <$> k → omap f l = k.
Proof.
  revert k. induction l as [|x l IH]; intros [|y k]; simpl; try done.
  intros [= Hx Hl]. rewrite Hx. f_equal. by apply IH.
Qed.
