(* ===== verification/JsString.v ===== *)
(** * JsString: the ECMAScript string operations the program calls

    A JavaScript string is a sequence of UTF-16 code units; it is modelled
    as [list Z].  Source literals are ASCII and are converted by [js].
    This file gives String.prototype.trim ([trim], with the exact
    WhiteSpace and LineTerminator set of ECMA-262), Array.prototype.join
    ([js_join], where [undefined] elements print as the empty string),
    string truthiness ([truthy]) and the [||] operator on strings
    ([js_or]), with the lemmas the extraction proofs rest on. *)

From stdpp Require Import base list strings.
From Stdlib Require Import ZArith Lia.
From S2P Require Import Spec2Rocq.

Local Open Scope Z_scope.

Abbreviation jsstr := (list Z).

(** An ASCII source literal as a sequence of code units. *)
Definition js (s : string) : jsstr :=
  map (λ a, Z.of_nat (Ascii.nat_of_ascii a)) (String.list_ascii_of_string s).

(** The two escapes of the source's literals: newline and double quote. *)
Definition LF : jsstr := [10].
Definition DQUOTE : jsstr := [34].

(** ECMA-262 WhiteSpace (TAB, VT, FF, ZWNBSP and category Zs) and
    LineTerminator (LF, CR, LS, PS); all of them are single code units. *)
Definition is_js_ws (c : Z) : bool :=
  (c =? 9) || (c =? 10) || (c =? 11) || (c =? 12) || (c =? 13)
  || (c =? 32) || (c =? 160) || (c =? 5760)
  || ((8192 <=? c) && (c <=? 8202))
  || (c =? 8232) || (c =? 8233) || (c =? 8239) || (c =? 8287)
  || (c =? 12288) || (c =? 65279).

Definition all_ws (s : jsstr) : bool := forallb is_js_ws s.

(** TrimString(S, start): drop the leading white space. *)
Fixpoint trim_start (s : jsstr) : jsstr :=
  match s with
  | [] => []
  | c :: s' => if is_js_ws c then trim_start s' else s
  end.

(** TrimString(S, end): drop the trailing white space. *)
Definition trim_end (s : jsstr) : jsstr := reverse (trim_start (reverse s)).

(** String.prototype.trim: TrimString(S, start+end). *)
Definition trim (s : jsstr) : jsstr := trim_end (trim_start s).

(** ToBoolean on a string: only the empty string is falsy. *)
Definition truthy (s : jsstr) : bool :=
  match s with [] => false | _ => true end.

(** [s || d] on strings. *)
Definition js_or (s d : jsstr) : jsstr := if truthy s then s else d.

Infix "||js" := js_or (at level 50, left associativity) : pdfchat_scope.

(** The string an element contributes to Array.prototype.join:
    [undefined] (here [None]) and [null] contribute the empty string. *)
Definition elem_to_string (o : option jsstr) : jsstr :=
  match o with Some s => s | None => [] end.

(** Array.prototype.join(sep). *)
Fixpoint js_join (sep : jsstr) (xs : list (option jsstr)) : jsstr :=
  match xs with
  | [] => []
  | [x] => elem_to_string x
  | x :: xs' => elem_to_string x ++ sep ++ js_join sep xs'
  end.

(** [join] over an array whose elements are all strings. *)
Definition join_strs (sep : jsstr) (ts : list jsstr) : jsstr :=
  js_join sep (map Some ts).

(** ** Lemmas *)

Lemma all_ws_app s t : all_ws (s ++ t) = all_ws s && all_ws t.
Proof. apply forallb_app. Qed.

Lemma all_ws_reverse s : all_ws (reverse s) = all_ws s.
Proof.
  induction s as [|c s IH]; [reflexivity|].
  rewrite reverse_cons, all_ws_app, IH. simpl.
  rewrite andb_true_r. apply andb_comm.
Qed.

Lemma trim_start_app s t :
  trim_start (s ++ t) = if all_ws s then trim_start t else trim_start s ++ t.
Proof.
  induction s as [|c s IH]; [reflexivity|].
  simpl. destruct (is_js_ws c); simpl; [exact IH | reflexivity].
Qed.

Lemma trim_start_nil_iff s : trim_start s = [] ↔ all_ws s = true.
Proof.
  induction s as [|c s IH]; [done|].
  simpl. destruct (is_js_ws c); simpl; [exact IH | split; discriminate].
Qed.

Lemma trim_start_head s c r : trim_start s = c :: r → is_js_ws c = false.
Proof.
  induction s as [|d s IH]; [discriminate|].
  simpl. destruct (is_js_ws d) eqn:E; [exact IH|]. by intros [= -> _].
Qed.

Lemma trim_start_idem s : trim_start (trim_start s) = trim_start s.
Proof.
  induction s as [|c s IH]; [reflexivity|].
  simpl. destruct (is_js_ws c) eqn:E; [exact IH|]. simpl. by rewrite E.
Qed.

Lemma trim_end_nil_iff s : trim_end s = [] ↔ all_ws s = true.
Proof.
  unfold trim_end. rewrite reverse_eq_nil, trim_start_nil_iff.
  by rewrite all_ws_reverse.
Qed.

Lemma trim_end_app_ws s w : all_ws w = true → trim_end (s ++ w) = trim_end s.
Proof.
  intros Hw. unfold trim_end.
  by rewrite reverse_app, trim_start_app, all_ws_reverse, Hw.
Qed.

Lemma trim_end_cons_nonws c r :
  is_js_ws c = false → trim_end (c :: r) = c :: trim_end r.
Proof.
  intros Hc. unfold trim_end.
  rewrite reverse_cons, trim_start_app, all_ws_reverse.
  destruct (all_ws r) eqn:Hr.
  - simpl. rewrite Hc.
    apply trim_start_nil_iff in Hr as Hr'.
    rewrite <- all_ws_reverse in Hr. apply trim_start_nil_iff in Hr.
    by rewrite Hr.
  - by rewrite reverse_app.
Qed.

Lemma trim_end_idem s : trim_end (trim_end s) = trim_end s.
Proof.
  unfold trim_end. by rewrite reverse_involutive, trim_start_idem.
Qed.

Lemma trim_start_trim_end_trim_start s :
  trim_start (trim_end (trim_start s)) = trim_end (trim_start s).
Proof.
  destruct (trim_start s) as [|c r] eqn:E; [reflexivity|].
  apply trim_start_head in E.
  rewrite trim_end_cons_nonws by exact E. simpl. by rewrite E.
Qed.

(** [trim] is idempotent. *)
Lemma trim_idem s : trim (trim s) = trim s.
Proof.
  unfold trim. rewrite trim_start_trim_end_trim_start. apply trim_end_idem.
Qed.

(** White space appended at the end does not survive [trim]. *)
Lemma trim_app_ws s w : all_ws w = true → trim (s ++ w) = trim s.
Proof.
  intros Hw. unfold trim. rewrite trim_start_app.
  destruct (all_ws s) eqn:Hs.
  - apply trim_start_nil_iff in Hw, Hs. by rewrite Hw, Hs.
  - by apply trim_end_app_ws.
Qed.

Lemma trim_nil_iff s : trim s = [] ↔ all_ws s = true.
Proof.
  unfold trim. rewrite trim_end_nil_iff.
  destruct (trim_start s) as [|c r] eqn:E.
  - apply trim_start_nil_iff in E. by rewrite E.
  - apply trim_start_head in E as Hc. simpl. rewrite Hc.
    split; [discriminate|]. intros H. apply trim_start_nil_iff in H. congruence.
Qed.

(** ** [trim] against its declarative contract

    ECMA-262 describes [trim] as removing the leading and the trailing
    white space: [trimmed_of s t] says that [t] is [s] with white space
    removed at both ends only, and that [t] neither starts nor ends with
    white space.  [trim_spec] shows that the implementation [trim] is
    that function. *)

Definition trimmed_of (s t : jsstr) : Prop :=
  ∃ p q, s = p ++ t ++ q ∧ all_ws p = true ∧ all_ws q = true ∧
    (∀ c, head t = Some c → is_js_ws c = false) ∧
    (∀ c, last t = Some c → is_js_ws c = false).

Lemma trim_start_split s : ∃ p, s = p ++ trim_start s ∧ all_ws p = true.
Proof.
  induction s as [|c s [p [Hs Hp]]]; [by exists []|]. simpl.
  destruct (is_js_ws c) eqn:Hc; [|by exists []].
  exists (c :: p). simpl. rewrite Hc, Hp. split; [by f_equal | done].
Qed.

Lemma trim_end_split s : ∃ q, s = trim_end s ++ q ∧ all_ws q = true.
Proof.
  destruct (trim_start_split (reverse s)) as [p [Hs Hp]].
  exists (reverse p). split; [|by rewrite all_ws_reverse].
  unfold trim_end. rewrite <- reverse_app, <- Hs. by rewrite reverse_involutive.
Qed.

Lemma trim_start_nonws t :
  (∀ c, head t = Some c → is_js_ws c = false) → trim_start t = t.
Proof. destruct t as [|c t]; [done|]. intros Hc. simpl. by rewrite (Hc c). Qed.

Lemma trim_end_nonws t :
  (∀ c, last t = Some c → is_js_ws c = false) → trim_end t = t.
Proof.
  intros Hc. unfold trim_end. rewrite trim_start_nonws; [apply reverse_involutive|].
  intros c. rewrite head_reverse. apply Hc.
Qed.

Lemma trim_last s c : last (trim s) = Some c → is_js_ws c = false.
Proof.
  unfold trim, trim_end. rewrite last_reverse.
  destruct (trim_start _) as [|d r] eqn:E; [discriminate|].
  intros [= <-]. by apply trim_start_head in E.
Qed.

Lemma trim_head s c : head (trim s) = Some c → is_js_ws c = false.
Proof.
  unfold trim. destruct (trim_start s) as [|d r] eqn:E; [discriminate|].
  apply trim_start_head in E. rewrite trim_end_cons_nonws by done.
  by intros [= <-].
Qed.

(** [trim] meets its contract, and is the only function that does. *)
Lemma trim_spec s t : trim s = t ↔ trimmed_of s t.
Proof.
  split.
  - intros <-. destruct (trim_start_split s) as [p [Hs Hp]].
    destruct (trim_end_split (trim_start s)) as [q [Ht Hq]].
    exists p, q. repeat split; [|done|done|apply trim_head|apply trim_last].
    rewrite Hs at 1. rewrite Ht at 1. reflexivity.
  - intros (p & q & -> & Hp & Hq & Hh & Hl). unfold trim.
    rewrite trim_start_app, Hp. destruct t as [|c r].
    + simpl. apply trim_start_nil_iff in Hq. by rewrite Hq.
    + assert (Hc : is_js_ws c = false) by (apply Hh; done).
      rewrite trim_start_app.
      replace (all_ws (c :: r)) with false by (unfold all_ws; cbn [forallb]; by rewrite Hc).
      rewrite (trim_start_nonws (c :: r)), trim_end_app_ws by done.
      by apply trim_end_nonws.
Qed.

(** Appending [t ++ sep] for every [t] is the join followed by [sep]. *)
Lemma concat_snoc_join sep ts :
  ts ≠ [] → concat (map (λ t, t ++ sep) ts) = join_strs sep ts ++ sep.
Proof.
  intros Hne. induction ts as [|t ts IH]; [done|].
  unfold join_strs in *. destruct ts as [|t' ts'].
  - simpl. by rewrite !app_nil_r.
  - cbn [map concat js_join] in *. rewrite IH by discriminate.
    by rewrite !app_assoc.
Qed.

(** The trimmed accumulator of a [t + sep] loop is the trimmed join,
    for a white-space separator. *)
Lemma trim_concat_snoc sep ts :
  all_ws sep = true →
  trim (concat (map (λ t, t ++ sep) ts)) = trim (join_strs sep ts).
Proof.
  intros Hsep. destruct ts as [|t ts]; [reflexivity|].
  rewrite concat_snoc_join by discriminate. by apply trim_app_ws.
Qed.

Lemma js_join_cons sep x xs :
  xs ≠ [] → js_join sep (x :: xs) = elem_to_string x ++ sep ++ js_join sep xs.
Proof. by destruct xs. Qed.

(** [join] depends only on the strings the elements print as. *)
Lemma js_join_ext sep xs ys :
  map elem_to_string xs = map elem_to_string ys → js_join sep xs = js_join sep ys.
Proof.
  revert ys. induction xs as [|x xs IH]; intros [|y ys] Heq; try discriminate; [done|].
  simpl in Heq. injection Heq as Hxy Hrest.
  destruct xs as [|x' xs'], ys as [|y' ys']; try discriminate; [exact Hxy|].
  rewrite (js_join_cons sep x), (js_join_cons sep y) by discriminate.
  by rewrite Hxy, (IH _ Hrest).
Qed.

Lemma truthy_nonempty s : s ≠ [] → truthy s = true.
Proof. by destruct s. Qed.

(** [question.trim()] is truthy exactly when the question is not blank. *)
Lemma truthy_trim s : truthy (trim s) = negb (all_ws s).
Proof.
  destruct (all_ws s) eqn:Hs.
  - apply trim_nil_iff in Hs. by rewrite Hs.
  - apply truthy_nonempty. intros Hnil. apply trim_nil_iff in Hnil. congruence.
Qed.

Lemma js_ws_space : all_ws (js " ") = true.
Proof. reflexivity. Qed.

#[export] Hint Resolve js_ws_space truthy_nonempty : pdfchat.
#[export] Hint Rewrite trim_idem : pdfchat_rw.
