(* ===== verification/Promise.v ===== *)
(** * Promise: the outcome of an awaited promise

    Every [await] of the program waits for a promise that either resolves
    with a value or rejects with an [Error].  Since the program never runs
    two of its own promises concurrently inside one handler, the outcome of
    an [async] function is modelled by the settled value [promise A]; the
    interleaving of handlers across [await]s is modelled in [App.v].
    [promise] is a monad through stdpp's [MRet]/[MBind], so that
    [const x = await m; k] reads [x ← m; k]; [try_catch] models
    [try { } catch (error) { }]. *)

From stdpp Require Import base list strings.
From S2P Require Import Spec2Rocq JsString.

(** An [Error] object; the program observes only its message. *)
Record JsError := mkError { message : jsstr }.

#[export] Instance JsError_eq_dec : EqDecision JsError.
Proof. solve_decision. Defined.

Inductive promise (A : Type) : Type :=
| Resolved (a : A)
| Rejected (e : JsError).
Arguments Resolved {A} a.
Arguments Rejected {A} e.

#[export] Instance promise_eq_dec `{EqDecision A} : EqDecision (promise A).
Proof. solve_decision. Defined.

#[export] Instance promise_ret : MRet promise := λ A a, Resolved a.
#[export] Instance promise_bind : MBind promise :=
  λ A B f m, match m with Resolved a => f a | Rejected e => Rejected e end.

(** [throw new Error(msg)]. *)
Definition throw {A} (msg : jsstr) : promise A := Rejected (mkError msg).

(** [try { body } catch (error) { handler(error) }]. *)
Definition try_catch {A} (body : promise A) (handler : JsError → promise A)
  : promise A :=
  match body with Resolved a => Resolved a | Rejected e => handler e end.

(** ** Laws *)

Lemma bind_eq_resolved {A B} (m : promise A) (f : A → promise B) b :
  (m ≫= f) = Resolved b ↔ ∃ a, m = Resolved a ∧ f a = Resolved b.
Proof.
  destruct m as [a|e]; simpl.
  - split; [eauto|]. by intros (? & [= <-] & ?).
  - split; [discriminate|]. by intros (? & ? & ?).
Qed.

Section Laws.
Context {A B : Type}.

Lemma bind_resolved (a : A) (f : A → promise B) : (Resolved a ≫= f) = f a.
Proof. reflexivity. Qed.

Lemma bind_rejected e (f : A → promise B) : (Rejected e ≫= f) = Rejected e.
Proof. reflexivity. Qed.

Lemma try_catch_resolved (a : A) h : try_catch (Resolved a) h = Resolved a.
Proof. reflexivity. Qed.

Lemma try_catch_rejected e (h : JsError → promise A) :
  try_catch (Rejected e) h = h e.
Proof. reflexivity. Qed.

Lemma mapM_cons (f : A → promise B) x xs :
  mapM f (x :: xs) = (y ← f x; k ← mapM f xs; mret (y :: k)).
Proof. reflexivity. Qed.

(** [mapM] (sequential awaits over a list) resolves exactly when every
    step does. *)
Lemma mapM_resolved (f : A → promise B) xs ys :
  mapM f xs = Resolved ys ↔ Forall2 (λ x y, f x = Resolved y) xs ys.
Proof.
  revert ys. induction xs as [|x xs IH]; intros ys.
  - split; [intros [= <-]; constructor | intros H; by inversion H].
  - rewrite mapM_cons, bind_eq_resolved. split.
    + intros (y & Hy & Hrest).
      apply bind_eq_resolved in Hrest as (ys' & Hys' & [= <-]).
      constructor; [done|]. by apply IH.
    + intros H. inversion H as [|? y ? ys' Hy Hys']; subst.
      exists y. split; [done|]. apply bind_eq_resolved.
      exists ys'. split; [by apply IH|done].
Qed.

(** One rejected step makes the whole [mapM] reject. *)
Lemma mapM_rejected (f : A → promise B) xs x e :
  x ∈ xs → f x = Rejected e → ∃ e', mapM f xs = Rejected e'.
Proof.
  intros Hin Hx. induction xs as [|y xs IH]; [by apply not_elem_of_nil in Hin|].
  rewrite mapM_cons. destruct (f y) as [b|e'] eqn:Hy; simpl; [|eauto].
  apply elem_of_cons in Hin as [->|Hin]; [congruence|].
  destruct (IH Hin) as [e' ->]. eauto.
Qed.

(** The error of the first rejected step is the error of the whole
    [mapM]: the later steps do not run. *)
Lemma mapM_first_rejected (f : A → promise B) xs x ys e :
  Forall (λ y, ∃ b, f y = Resolved b) xs → f x = Rejected e →
  mapM f (xs ++ x :: ys) = Rejected e.
Proof.
  induction xs as [|y xs IH]; intros Hall Hx; cbn [app].
  - rewrite mapM_cons, Hx. reflexivity.
  - apply Forall_cons in Hall as [[b Hb] Hall]. rewrite mapM_cons, Hb.
    cbn [mbind promise_bind]. by rewrite IH.
Qed.
End Laws.

#[export] Hint Rewrite @bind_resolved @bind_rejected @try_catch_resolved
  @try_catch_rejected : pdfchat_rw.
