(* ===== verification/PdfJs.v ===== *)
(** * PdfJs: the surface of pdf.js that the program calls

    [extractTextFromPDF] uses four entry points of pdf.js:
    [getDocument({ data }).promise], [pdf.numPages], [pdf.getPage(i)] and
    [page.getTextContent()].  The library is a parameter of the
    development: the type class [PdfJsLib] states these operations, whose
    results are awaited promises.  [TextContentItem] is the union of
    pdf.js's [TextItem] (which carries [str]) and [TextMarkedContent]
    (which does not).  [MemPdf] is a concrete in-memory instance, with a
    decoding function from bytes to documents, used to run the model on
    concrete documents. *)

From stdpp Require Import base list strings.
From Stdlib Require Import ZArith Lia.
From S2P Require Import Spec2Rocq JsString Promise.

Local Open Scope Z_scope.

(** An [ArrayBuffer] as its bytes. *)
Abbreviation ArrayBuffer := (list Byte.byte).

(** The elements of [TextContent.items]. *)
Inductive TextContentItem :=
| TextItem (str : jsstr)
| TextMarkedContent (type_ : jsstr) (id : option jsstr).

#[export] Instance TextContentItem_eq_dec : EqDecision TextContentItem.
Proof. solve_decision. Defined.

Class PdfJsLib := {
  PDFDocumentProxy : Type;
  PDFPageProxy : Type;
  (** [pdfjsLib.getDocument({ data: pdfBuffer }).promise] *)
  getDocument : ArrayBuffer → promise PDFDocumentProxy;
  (** [pdf.numPages] *)
  numPages : PDFDocumentProxy → Z;
  (** [pdf.getPage(i)] *)
  getPage : PDFDocumentProxy → Z → promise PDFPageProxy;
  (** [(await page.getTextContent()).items] *)
  getTextContent : PDFPageProxy → promise (list TextContentItem);
}.

(** ** An in-memory pdf.js *)

(** A decoded document: for each page, its text items, or [None] when
    the page's content stream cannot be read. *)
Record MemDocument := { mem_pages : list (option (list TextContentItem)) }.

Definition mem_getPage (d : MemDocument) (i : Z)
  : promise (option (list TextContentItem)) :=
  if (1 <=? i) && (i <=? Z.of_nat (length (mem_pages d))) then
    match mem_pages d !! Z.to_nat (i - 1) with
    | Some p => Resolved p
    | None => throw (js "Invalid page request.")
    end
  else throw (js "Invalid page request.").

Definition mem_getTextContent (p : option (list TextContentItem))
  : promise (list TextContentItem) :=
  match p with
  | Some items => Resolved items
  | None => throw (js "Bad content stream.")
  end.

Definition MemPdf (decode : ArrayBuffer → option MemDocument) : PdfJsLib := {|
  PDFDocumentProxy := MemDocument;
  PDFPageProxy := option (list TextContentItem);
  getDocument b :=
    match decode b with
    | Some d => Resolved d
    | None => throw (js "Invalid PDF structure.")
    end;
  numPages d := Z.of_nat (length (mem_pages d));
  getPage := mem_getPage;
  getTextContent := mem_getTextContent;
|}.
