(* ===== verification/Extract.v ===== *)
(** * Extract: [extractTextFromPDF] (src/src/utils/pdfUtils.ts, lines 13-32)

    The function opens the buffer with pdf.js, runs
    [for (let i = 1; i <= pdf.numPages; i++)] reading each page's text
    items, joins each page's [str]s with a space, appends the page text and
    one space to [fullText], and returns [fullText.trim()]; its [catch]
    replaces every rejection by [Error('Failed to extract text from PDF')].

    The loop is [extract_pages], a [Fixpoint] on fuel that keeps the
    code's guard [i <= numPages]; [extractTextFromPDF] runs it with fuel
    [Z.to_nat (numPages pdf)].  [extract_spec] is the contract of the
    spec (section 4.1): the page texts, read in order, joined with single
    spaces and trimmed, or the single opaque error.  The section proves
    that the code refines the contract, that the fuel is enough, and the
    error behaviour. *)

From stdpp Require Import base list list_numbers strings.
From Stdlib Require Import ZArith Lia.
From S2P Require Import Spec2Rocq JsString Promise PdfJs.

Local Open Scope Z_scope.

Section Extract.
Context {pdfjs : PdfJsLib}.

(** [(item: any) => item.str]: [undefined] for marked content. *)
Definition item_str (item : TextContentItem) : option jsstr :=
  match item with
  | TextItem s => Some s
  | TextMarkedContent _ _ => None
  end.

(** [textContent.items.map((item: any) => item.str).join(' ')] *)
Definition page_text (items : list TextContentItem) : jsstr :=
  js_join (js " ") (map item_str items).

(** The [for] loop of lines 18-25, from index [i] with accumulator
    [fullText]. *)
Fixpoint extract_pages (pdf : PDFDocumentProxy) (i : Z) (fuel : nat)
    (fullText : jsstr) : promise jsstr :=
  match fuel with
  | O => mret fullText
  | S fuel' =>
      if i <=? numPages pdf then
        page ← getPage pdf i;
        textContent ← getTextContent page;
        let pageText := page_text textContent in
        extract_pages pdf (i + 1) fuel' (fullText ++ pageText ++ js " ")
      else mret fullText
  end.

Definition EXTRACT_ERROR : jsstr := js "Failed to extract text from PDF".

(** Lines 15-27: the [try] block of [extractTextFromPDF]. *)
Definition extract_try (pdfBuffer : ArrayBuffer) : promise jsstr :=
  pdf ← getDocument pdfBuffer;
  fullText ← extract_pages pdf 1 (Z.to_nat (numPages pdf)) [];
  mret (trim fullText).

(** [extractTextFromPDF(pdfBuffer)]; its [console.error] (line 29) is in
    [Console.v]. *)
Definition extractTextFromPDF (pdfBuffer : ArrayBuffer) : promise jsstr :=
  try_catch (extract_try pdfBuffer) (λ error, throw EXTRACT_ERROR).

(** ** The contract *)

(** Reading page [i]: [await pdf.getPage(i)], then its text. *)
Definition read_page (pdf : PDFDocumentProxy) (i : Z) : promise jsstr :=
  page ← getPage pdf i;
  textContent ← getTextContent page;
  mret (page_text textContent).

(** The texts of pages [1..numPages], in page order. *)
Definition page_texts (pdf : PDFDocumentProxy) : promise (list jsstr) :=
  mapM (read_page pdf) (seqZ 1 (numPages pdf)).

(** Section 4.1 of the spec: the trimmed page texts joined by single
    spaces, or the single opaque [ExtractionError]. *)
Definition extract_spec (pdfBuffer : ArrayBuffer) : promise jsstr :=
  match (pdf ← getDocument pdfBuffer;
         ts ← page_texts pdf;
         mret (trim (join_strs (js " ") ts))) with
  | Resolved t => Resolved t
  | Rejected _ => throw EXTRACT_ERROR
  end.

(** ** Loop lemmas *)

(** Loop invariant: after the remaining iterations, the accumulator has
    grown by every remaining page text followed by a space. *)
Lemma extract_pages_spec pdf (n : nat) i acc :
  Z.of_nat n = Z.max 0 (numPages pdf - i + 1) →
  extract_pages pdf i n acc =
    (ts ← mapM (read_page pdf) (seqZ i (Z.of_nat n));
     mret (acc ++ concat (map (λ t, t ++ js " ") ts))).
Proof.
  revert i acc. induction n as [|n IH]; intros i acc Hn.
  - simpl. by rewrite app_nil_r.
  - cbn [extract_pages]. rewrite ?Z_leb_true by lia.
    rewrite Nat2Z.inj_succ, seqZ_cons, mapM_cons by lia.
    replace (Z.succ i) with (i + 1) by lia.
    replace (Z.pred (Z.succ (Z.of_nat n))) with (Z.of_nat n) by lia.
    remember (mapM (read_page pdf) (seqZ (i + 1) (Z.of_nat n))) as rest eqn:Hrest.
    unfold read_page. destruct (getPage pdf i) as [page|e]; [|reflexivity].
    cbn [mbind promise_bind].
    destruct (getTextContent page) as [items|e]; [|reflexivity].
    cbn [mbind promise_bind mret promise_ret].
    rewrite IH, <- Hrest by lia.
    destruct rest; [|reflexivity]. simpl. by rewrite !app_assoc.
Qed.

Lemma seqZ_to_nat m n : seqZ m (Z.of_nat (Z.to_nat n)) = seqZ m n.
Proof.
  destruct (Z.le_gt_cases n 0).
  - rewrite !seqZ_nil by lia. reflexivity.
  - by rewrite Z2Nat.id by lia.
Qed.

(** The code's loop, run with the code's fuel from page 1. *)
Lemma extract_pages_full pdf :
  extract_pages pdf 1 (Z.to_nat (numPages pdf)) [] =
    (ts ← page_texts pdf; mret (concat (map (λ t, t ++ js " ") ts))).
Proof.
  rewrite extract_pages_spec by lia. by rewrite seqZ_to_nat.
Qed.

(** The page range split at page [i]: the pages before it, [i], and the
    pages after it. *)
Lemma seqZ_split m n i :
  m <= i < m + n → seqZ m n = seqZ m (i - m) ++ i :: seqZ (i + 1) (m + n - i - 1).
Proof.
  intros Hi. replace n with ((i - m) + (m + n - i)) at 1 by lia.
  rewrite seqZ_app by lia. f_equal. replace (m + (i - m)) with i by lia.
  rewrite seqZ_cons by lia. do 2 f_equal; lia.
Qed.

(** The [try] block rejects with the error of the first page that cannot
    be read: the pages after it are not read. *)
Lemma extract_try_first_failure pdfBuffer pdf i e :
  getDocument pdfBuffer = Resolved pdf →
  1 <= i <= numPages pdf →
  (∀ j, 1 <= j < i → ∃ t, read_page pdf j = Resolved t) →
  read_page pdf i = Rejected e →
  extract_try pdfBuffer = Rejected e.
Proof.
  intros Hdoc Hi Hbefore Hpage. unfold extract_try. rewrite Hdoc.
  cbn [mbind promise_bind]. rewrite extract_pages_full. unfold page_texts.
  rewrite (seqZ_split 1 (numPages pdf) i) by lia.
  rewrite (mapM_first_rejected _ _ i _ e); [done | | done].
  apply Forall_seqZ. intros j Hj. apply Hbefore. lia.
Qed.

(** What a settled extraction can be: a trimmed text, or the opaque
    error. *)
Lemma extract_outcome pdfBuffer :
  match extractTextFromPDF pdfBuffer with
  | Resolved t => trim t = t
  | Rejected e => e = mkError EXTRACT_ERROR
  end.
Proof.
  unfold extractTextFromPDF, extract_try.
  destruct (getDocument pdfBuffer) as [pdf|]; [|reflexivity].
  cbn [mbind promise_bind].
  destruct (extract_pages _ _ _ _); [apply trim_idem | reflexivity].
Qed.

(** ** Properties *)

(** Claim C1: refinement.  [extractTextFromPDF] implements the contract
    of the spec: on every buffer it returns the trimmed join, by single
    spaces, of the page texts read in order, and rejects with the one
    opaque error whenever opening the document or reading any page
    fails. *)
Theorem extractTextFromPDF_refines (pdfBuffer : ArrayBuffer) :
  extractTextFromPDF pdfBuffer = extract_spec pdfBuffer.
Proof.
  unfold extractTextFromPDF, extract_try, extract_spec.
  destruct (getDocument pdfBuffer) as [pdf|e]; [|reflexivity].
  cbn [mbind promise_bind]. rewrite extract_pages_full.
  destruct (page_texts pdf) as [ts|e]; [|reflexivity].
  simpl. rewrite trim_concat_snoc by solve_side. done.
Qed.

(** Claim C6: termination.  The loop needs no more fuel than the number
    of pages left: any extra fuel gives the same result, so the fuel
    [Z.to_nat (numPages pdf)] used by [extractTextFromPDF] runs the
    [for] loop to its exit test. *)
Theorem extract_pages_fuel pdf (n k : nat) i acc :
  numPages pdf - i + 1 <= Z.of_nat n →
  extract_pages pdf i (n + k) acc = extract_pages pdf i n acc.
Proof.
  revert i acc. induction n as [|n IH]; intros i acc Hn; simpl.
  - destruct k; simpl; [reflexivity|]. by rewrite Z_leb_false by lia.
  - destruct (i <=? numPages pdf); [|reflexivity].
    destruct (getPage pdf i); [|reflexivity]. simpl.
    destruct (getTextContent _); [|reflexivity]. simpl. apply IH. lia.
Qed.

(** Claim C16: bounds.  The loop asks pdf.js only for pages in range:
    started at any index [i >= 1] and run with any fuel, it calls
    [getPage] only with indices in [i .. numPages], never with page 0 or
    [numPages + 1]; so two documents with the same page count whose pages
    [1 .. numPages] agree give the same result, whatever they answer
    outside that range. *)
Theorem extract_pages_reads_in_range pdf pdf' (fuel : nat) i acc :
  1 <= i → numPages pdf' = numPages pdf →
  (∀ j, 1 <= j <= numPages pdf → getPage pdf' j = getPage pdf j) →
  extract_pages pdf' i fuel acc = extract_pages pdf i fuel acc.
Proof.
  intros Hi Hn Hp. revert i acc Hi. induction fuel as [|fuel IH]; intros i acc Hi; [done|].
  cbn [extract_pages]. rewrite Hn.
  destruct (Z.leb_spec i (numPages pdf)) as [Hle|]; [|done].
  rewrite Hp by lia. destruct (getPage pdf i); [|done]. simpl.
  destruct (getTextContent _); [|done]. simpl. apply IH. lia.
Qed.

(** When pdf.js cannot open the buffer (corrupt data,
    unsupported format, empty buffer), [extractTextFromPDF] rejects with
    [Error('Failed to extract text from PDF')]. *)
Theorem extract_document_error pdfBuffer e :
  getDocument pdfBuffer = Rejected e →
  extractTextFromPDF pdfBuffer = throw EXTRACT_ERROR.
Proof.
  intros He. unfold extractTextFromPDF, extract_try. rewrite He.
  by autorewrite with pdfchat_rw.
Qed.

(** Claim C7: error.  When any page [i] of [1..numPages] cannot be read
    (its [getPage] or its [getTextContent] rejects), the whole
    extraction rejects with the opaque error, whatever the other pages
    hold. *)
Theorem extract_page_error pdfBuffer pdf i e :
  getDocument pdfBuffer = Resolved pdf →
  1 <= i <= numPages pdf →
  read_page pdf i = Rejected e →
  extractTextFromPDF pdfBuffer = throw EXTRACT_ERROR.
Proof.
  intros Hdoc Hi Hpage. unfold extractTextFromPDF, extract_try. rewrite Hdoc.
  cbn [mbind promise_bind]. rewrite extract_pages_full.
  destruct (mapM_rejected (read_page pdf) (seqZ 1 (numPages pdf)) i e)
    as [e' He']; [apply elem_of_seqZ; lia | done |].
  unfold page_texts. by rewrite He'.
Qed.

(** Claim C29: error.  What a settled extraction can be: a text with no
    leading or trailing white space (a fixed point of [trim]), or a
    rejection that carries the one opaque message, so that no page-level
    detail escapes the [catch]. *)
Theorem extract_settles_trimmed_or_opaque pdfBuffer :
  (∀ t, extractTextFromPDF pdfBuffer = Resolved t → trim t = t) ∧
  (∀ e, extractTextFromPDF pdfBuffer = Rejected e → e = mkError EXTRACT_ERROR).
Proof.
  pose proof (extract_outcome pdfBuffer) as Ho.
  split; intros ? Hx; by rewrite Hx in Ho.
Qed.

(** The success case of section 8 of the spec: when every page reads,
    the result is the trimmed page texts [T1 + ' ' + ... + ' ' + Tn]. *)
Lemma extract_success pdfBuffer pdf ts :
  getDocument pdfBuffer = Resolved pdf →
  page_texts pdf = Resolved ts →
  extractTextFromPDF pdfBuffer = Resolved (trim (join_strs (js " ") ts)).
Proof.
  intros Hdoc Hts. unfold extractTextFromPDF, extract_try. rewrite Hdoc.
  cbn [mbind promise_bind]. rewrite extract_pages_full, Hts. simpl.
  rewrite trim_concat_snoc by solve_side. done.
Qed.

(** Extraction succeeds exactly when the document
    opens and every page [1..numPages] reads, and its result is then the
    trimmed join of the page texts, in page order. *)
Theorem extract_resolves_iff pdfBuffer t :
  extractTextFromPDF pdfBuffer = Resolved t ↔
  ∃ pdf ts, getDocument pdfBuffer = Resolved pdf ∧
    Forall2 (λ i ti, read_page pdf i = Resolved ti) (seqZ 1 (numPages pdf)) ts ∧
    t = trim (join_strs (js " ") ts).
Proof.
  unfold extractTextFromPDF, extract_try.
  destruct (getDocument pdfBuffer) as [pdf|e]; cbn [mbind promise_bind try_catch].
  - rewrite extract_pages_full. unfold page_texts.
    destruct (mapM (read_page pdf) _) as [ts|e] eqn:Hm; simpl.
    + rewrite trim_concat_snoc by solve_side. split.
      * intros [= <-]. exists pdf, ts. repeat split; [by apply mapM_resolved].
      * intros (? & ts' & [= <-] & Hf%mapM_resolved & ->). congruence.
    + split; [discriminate|]. intros (? & ? & [= <-] & Hf%mapM_resolved & _). congruence.
  - split; [discriminate|]. by intros (? & ? & [=] & _).
Qed.

(** Claim C23: equivalence.  Once the document opens and its pages
    read, the result of the extraction is exactly what the ECMAScript
    contract of [trim] prescribes for the page texts joined by single
    spaces: the join with white space removed at both ends and nowhere
    else, neither starting nor ending with white space.  No visible
    character of any page is lost or reordered. *)
Theorem extract_strips_only_edge_whitespace pdfBuffer pdf ts t :
  getDocument pdfBuffer = Resolved pdf → page_texts pdf = Resolved ts →
  extractTextFromPDF pdfBuffer = Resolved t ↔ trimmed_of (join_strs (js " ") ts) t.
Proof.
  intros Hd Hts. rewrite (extract_success _ _ _ Hd Hts), <- trim_spec.
  split; [by intros [= ->] | by intros ->].
Qed.

(** Claim C37: functional.  A marked-content item (no [str]) contributes
    an empty string to its page's join, exactly as an empty text item
    does, so it adds one separator. *)
Theorem page_text_marked_content xs ys ty id :
  page_text (xs ++ TextMarkedContent ty id :: ys) = page_text (xs ++ TextItem [] :: ys).
Proof. unfold page_text. apply js_join_ext. by rewrite !map_app. Qed.
End Extract.

(** ** Concrete documents

    A decoder for [MemPdf]: the empty buffer is not a PDF; a buffer
    starting with byte 0 decodes to a two-page document whose second page
    cannot be read; any other buffer decodes to a two-page document whose
    second page starts with a marked-content item. *)

Definition demo_good : MemDocument := {| mem_pages :=
  [Some [TextItem (js "The sky"); TextItem (js "is blue.")];
   Some [TextMarkedContent (js "Span") None; TextItem (js "Page two. ")]] |}.

Definition demo_bad : MemDocument := {| mem_pages :=
  [Some [TextItem (js "The sky")]; None] |}.

Definition demo_decode (b : ArrayBuffer) : option MemDocument :=
  match b with
  | [] => None
  | Byte.x00 :: _ => Some demo_bad
  | _ => Some demo_good
  end.

Abbreviation DemoPdf := (MemPdf demo_decode).

Lemma extract_page_error_witness :
  @getDocument DemoPdf [Byte.x00] = Resolved demo_bad ∧
  @extractTextFromPDF DemoPdf [Byte.x00] = throw EXTRACT_ERROR.
Proof.
  split; [reflexivity|].
  apply (extract_page_error (pdfjs := DemoPdf) [Byte.x00] demo_bad 2
           (mkError (js "Bad content stream."))); [reflexivity | vm_compute; split; discriminate | reflexivity].
Defined.

Lemma extract_settles_trimmed_or_opaque_witness :
  @extractTextFromPDF DemoPdf [Byte.x25] = Resolved (js "The sky is blue.  Page two.") ∧
  trim (js "The sky is blue.  Page two.") = js "The sky is blue.  Page two." ∧
  @extractTextFromPDF DemoPdf [Byte.x00] = Rejected (mkError EXTRACT_ERROR) ∧
  mkError EXTRACT_ERROR = mkError EXTRACT_ERROR.
Proof.
  split; [vm_compute; reflexivity|]. split.
  - apply (extract_settles_trimmed_or_opaque (pdfjs := DemoPdf) [Byte.x25]).
    vm_compute. reflexivity.
  - split; [reflexivity|].
    apply (extract_settles_trimmed_or_opaque (pdfjs := DemoPdf) [Byte.x00]). reflexivity.
Defined.

Lemma extract_strips_only_edge_whitespace_witness :
  @extractTextFromPDF DemoPdf [Byte.x25] = Resolved (js "The sky is blue.  Page two.") ∧
  trimmed_of (join_strs (js " ") [js "The sky is blue."; js " Page two. "])
    (js "The sky is blue.  Page two.").
Proof.
  split; [vm_compute; reflexivity|].
  apply (extract_strips_only_edge_whitespace (pdfjs := DemoPdf) [Byte.x25] demo_good);
    vm_compute; reflexivity.
Defined.

Lemma extract_pages_fuel_witness :
  @extract_pages DemoPdf demo_good 1 (2 + 3) [] = @extract_pages DemoPdf demo_good 1 2 [].
Proof. apply (extract_pages_fuel (pdfjs := DemoPdf) demo_good 2 3 1 []). simpl. lia. Defined.

(** An instance whose documents answer every page index, in range or
    not: a page count and a page for each index. *)
Definition RawPdf : PdfJsLib := {|
  PDFDocumentProxy := Z * (Z → list TextContentItem);
  PDFPageProxy := list TextContentItem;
  getDocument b := Resolved (Z.of_nat (length b), λ _, []);
  numPages d := d.1;
  getPage d i := Resolved (d.2 i);
  getTextContent p := Resolved p;
|}.

Lemma extract_pages_reads_in_range_witness :
  @extract_pages RawPdf
    (1, λ i, if decide (i = 1) then [TextItem (js "One.")] else [TextItem (js "Stray.")]) 1 5 [] =
  @extract_pages RawPdf (1, λ i, if decide (i = 1) then [TextItem (js "One.")] else []) 1 5 [].
Proof.
  apply (extract_pages_reads_in_range (pdfjs := RawPdf)); [lia | reflexivity |].
  intros j Hj. simpl in Hj. assert (j = 1) as -> by lia. reflexivity.
Defined.
