(* ===== verification/Answer.v ===== *)
(** * Answer: [getAnswerFromAI] (src/src/utils/pdfUtils.ts, lines 9-11 and 34-50)

    The Gemini SDK is a parameter: [GenerativeModel] is the model object
    whose [generateContent] settles with a result or rejects, and whose
    [response.text()] returns the text or throws.  The module
    initialisation builds one model from the API key ([module_model]).
    [prompt] is the template literal of line 39, code unit for code unit;
    [getAnswerFromAI] is the try/catch of lines 38-49 with
    [text || fallback].  The theorems show the contract of section 4.2 of
    the spec: the function never rejects, returns the model's text verbatim
    when it is non-empty and the fallback sentence on an empty text or on
    any error; and they show what the prompt does and does not determine. *)

From stdpp Require Import base list strings.
From S2P Require Import Spec2Rocq JsString Promise.

Local Open Scope pdfchat_scope.

(** ** The SDK surface *)

(** [result.response]: its [text()] returns the answer or throws (for
    instance when the candidate was blocked). *)
Record EnhancedGenerateContentResponse := { text : promise jsstr }.

(** The value [model.generateContent(prompt)] resolves with. *)
Record GenerateContentResult := { response : EnhancedGenerateContentResponse }.

(** A model object: what [generateContent] does with a prompt. *)
Record GenerativeModel := {
  generateContent : jsstr → promise GenerateContentResult
}.

(** [new GoogleGenerativeAI(key)] and [genAI.getGenerativeModel({ model })]. *)
Class GenAISdk := {
  GoogleGenerativeAI : Type;
  newGoogleGenerativeAI : jsstr → GoogleGenerativeAI;
  getGenerativeModel : GoogleGenerativeAI → jsstr → GenerativeModel;
}.

(** [import.meta.env.VITE_GOOGLE_API_KEY || '']: [None] is [undefined]. *)
Definition api_key (env_key : option jsstr) : jsstr :=
  match env_key with Some k => k ||js [] | None => [] end.

(** Lines 10-11: the model built once at module load. *)
Definition module_model `{GenAISdk} (env_key : option jsstr) : GenerativeModel :=
  let genAI := newGoogleGenerativeAI (api_key env_key) in
  getGenerativeModel genAI (js "gemini-pro").

(** ** The function *)

Definition FALLBACK : jsstr :=
  js "Sorry, I didn't understand your question. Do you want to connect with a live agent?".

(** The text between the context and the question in the prompt. *)
Definition QUESTION_MARKER : jsstr := LF ++ LF ++ js "Question: ".

(** The instruction that closes the prompt. *)
Definition INSTRUCTIONS : jsstr :=
  LF ++ LF ++ js "Please provide a concise and relevant answer based on the context. If the answer cannot be found in the context, respond with: "
  ++ DQUOTE ++ FALLBACK ++ DQUOTE.

(** The template literal of line 39. *)
Definition prompt (context question : jsstr) : jsstr :=
  js "Context from PDF: " ++ context ++ QUESTION_MARKER ++ question ++ INSTRUCTIONS.

(** Lines 39-45: the [try] block of [getAnswerFromAI]. *)
Definition answer_try (model : GenerativeModel) (context question : jsstr) : promise jsstr :=
  let p := prompt context question in
  result ← generateContent model p;
  response ← mret (response result);
  text ← text response;
  mret (text ||js FALLBACK).

(** [getAnswerFromAI(context, question)] against the model object; its
    [console.error] (line 47) is in [Console.v]. *)
Definition getAnswerFromAI (model : GenerativeModel) (context question : jsstr)
  : promise jsstr :=
  try_catch (answer_try model context question) (λ error, mret FALLBACK).

(** ** Lemmas *)

(** The string the call settles with, by the outcomes of the two awaited
    calls. *)
Definition settled_answer model context question : jsstr :=
  match generateContent model (prompt context question) with
  | Resolved r =>
      match text (response r) with
      | Resolved t => t ||js FALLBACK
      | Rejected _ => FALLBACK
      end
  | Rejected _ => FALLBACK
  end.

Lemma getAnswerFromAI_settles model context question :
  getAnswerFromAI model context question =
    Resolved (settled_answer model context question).
Proof.
  unfold getAnswerFromAI, answer_try, settled_answer.
  destruct (generateContent model _) as [r|]; [|reflexivity].
  simpl. by destruct (text (response r)).
Qed.

Lemma FALLBACK_not_nil : FALLBACK ≠ [].
Proof. discriminate. Qed.

Lemma js_or_FALLBACK_not_nil t : t ||js FALLBACK ≠ [].
Proof. unfold js_or. destruct t; discriminate. Qed.

#[export] Hint Resolve FALLBACK_not_nil js_or_FALLBACK_not_nil : pdfchat.

(** An answer is never the empty string. *)
Lemma getAnswerFromAI_not_nil model context question answer :
  getAnswerFromAI model context question = Resolved answer → answer ≠ [].
Proof.
  unfold getAnswerFromAI, answer_try. cbn zeta.
  destruct (generateContent _ _) as [r|]; simpl; [destruct (text (response r))|];
    simpl; intros [= <-]; solve_side.
Qed.

(** ** Properties *)

(** Claim C2: safety.  [getAnswerFromAI] never rejects: whatever the model
    does, the caller receives a string. *)
Theorem getAnswerFromAI_never_rejects model context question :
  ∃ answer, getAnswerFromAI model context question = Resolved answer.
Proof.
  eexists. apply getAnswerFromAI_settles.
Qed.

(** Claim C10: functional.  When the model answers the prompt built from
    the context and the question, a non-empty text is returned verbatim
    and an empty text, which is falsy, is replaced by the fallback
    sentence. *)
Theorem getAnswerFromAI_model_text model context question r t :
  generateContent model (prompt context question) = Resolved r →
  text (response r) = Resolved t →
  getAnswerFromAI model context question =
    Resolved (match t with [] => FALLBACK | _ => t end).
Proof.
  intros Hr Ht. unfold getAnswerFromAI, answer_try. cbn zeta. rewrite Hr. simpl.
  rewrite Ht. simpl. unfold js_or. by destruct t.
Qed.

(** Claim C9: error.  When the request rejects (network or service error)
    or [response.text()] throws, the fallback sentence is returned. *)
Theorem getAnswerFromAI_error model context question e :
  (generateContent model (prompt context question) = Rejected e ∨
   ∃ r, generateContent model (prompt context question) = Resolved r ∧
        text (response r) = Rejected e) →
  getAnswerFromAI model context question = Resolved FALLBACK.
Proof.
  unfold getAnswerFromAI, answer_try. cbn zeta.
  intros [Hr | (r & Hr & Ht)]; rewrite Hr; [done|]. simpl. by rewrite Ht.
Qed.

(** Every answer is either the fallback sentence or
    a non-empty text the model produced for exactly this prompt. *)
Theorem getAnswerFromAI_cases model context question answer :
  getAnswerFromAI model context question = Resolved answer →
  answer = FALLBACK ∨
  (answer ≠ [] ∧ ∃ r, generateContent model (prompt context question) = Resolved r ∧
                       text (response r) = Resolved answer).
Proof.
  unfold getAnswerFromAI, answer_try. cbn zeta.
  destruct (generateContent _ _) as [r|]; simpl; [|intros [= <-]; by left].
  destruct (text (response r)) as [t|] eqn:Ht; simpl; [|intros [= <-]; by left].
  unfold js_or. destruct t as [|c t]; intros [= <-]; [by left|].
  right. split; [discriminate|eauto].
Qed.

(** The prompt determines each of its arguments
    once the other is known: the context given the question, and the
    question given the context. *)
Theorem prompt_determined c1 c2 q1 q2 :
  (prompt c1 q1 = prompt c2 q1 → c1 = c2) ∧ (prompt c1 q1 = prompt c1 q2 → q1 = q2).
Proof.
  unfold prompt. split; intros H.
  - apply app_inv_head in H. rewrite !app_assoc in H. by do 3 apply app_inv_tail in H.
  - rewrite !app_assoc in H. apply app_inv_tail in H.
    rewrite <- !app_assoc in H. by do 3 apply app_inv_head in H.
Qed.

(** Claim C32: safety.  The prompt does not separate the context from the
    question: a document whose text contains the question marker and a
    forged question sends the model the same prompt as another document
    with another question. *)
Theorem prompt_question_forgeable context forged question :
  prompt (context ++ QUESTION_MARKER ++ forged) question =
  prompt context (forged ++ QUESTION_MARKER ++ question).
Proof. unfold prompt. by rewrite !app_assoc. Qed.

(** ** Concrete models *)

(** A model that answers every prompt with [t]. *)
Definition answering_model (t : jsstr) : GenerativeModel :=
  {| generateContent _ := Resolved {| response := {| text := Resolved t |} |} |}.

(** A model whose request fails. *)
Definition failing_model : GenerativeModel :=
  {| generateContent _ := throw (js "[GoogleGenerativeAI Error]: fetch failed") |}.

Lemma getAnswerFromAI_model_text_witness :
  getAnswerFromAI (answering_model (js "Blue.")) (js "The sky is blue.")
    (js "What color is the sky?") = Resolved (js "Blue.") ∧
  getAnswerFromAI (answering_model []) (js "The sky is blue.")
    (js "What color is the sky?") = Resolved FALLBACK.
Proof.
  split.
  - apply (getAnswerFromAI_model_text _ _ _ {| response := {| text := Resolved (js "Blue.") |} |}
             (js "Blue.")); reflexivity.
  - apply (getAnswerFromAI_model_text _ _ _ {| response := {| text := Resolved [] |} |} []);
      reflexivity.
Defined.

Lemma getAnswerFromAI_error_witness :
  getAnswerFromAI failing_model (js "The sky is blue.")
    (js "What color is the sky?") = Resolved FALLBACK.
Proof.
  apply (getAnswerFromAI_error _ _ _ (mkError (js "[GoogleGenerativeAI Error]: fetch failed"))).
  left. reflexivity.
Defined.
