(* ===== verification/PdfUtils.v ===== *)
(** * PdfUtils: what src/src/utils/pdfUtils.ts promises to App.tsx

    [App.tsx] imports two functions from [pdfUtils.ts].  The type class
    [PdfUtilsApi] states them with the facts the component relies on:
    an extraction that resolves yields a trimmed text and one that rejects
    carries the opaque extraction error; an answer request never rejects
    and never yields the empty string.
    [App.v] is proved against this interface; [pdfUtils] is the instance
    built from [Extract] and [Answer], which discharges it. *)

From stdpp Require Import base list strings.
From S2P Require Import Spec2Rocq JsString Promise PdfJs Extract Answer.

Class PdfUtilsApi := {
  (** [extractTextFromPDF(buffer)] *)
  api_extract : ArrayBuffer → promise jsstr;
  (** [getAnswerFromAI(context, question)], against the model object the
      module holds when the call is made *)
  api_answer : GenerativeModel → jsstr → jsstr → promise jsstr;
  api_extract_outcome : ∀ b,
    match api_extract b with
    | Resolved t => trim t = t
    | Rejected e => e = mkError EXTRACT_ERROR
    end;
  api_answer_settles : ∀ model context question,
    ∃ answer, api_answer model context question = Resolved answer;
  api_answer_not_nil : ∀ model context question answer,
    api_answer model context question = Resolved answer → answer ≠ [];
}.

#[export] Instance pdfUtils `{PdfJsLib} : PdfUtilsApi := {|
  api_extract := extractTextFromPDF;
  api_answer := getAnswerFromAI;
  api_extract_outcome := extract_outcome;
  api_answer_settles m c q := ex_intro _ _ (getAnswerFromAI_settles m c q);
  api_answer_not_nil := getAnswerFromAI_not_nil;
|}.
