(* ===== verification/App.v ===== *)
(** * App: the React component of src/src/App.tsx as a state machine

    [AppState] holds the four [useState] cells of [App] (lines 11-14) and
    the handler invocations suspended at an [await] ([pending]).  Each
    asynchronous handler is split at its [await]s, each part running
    with the values the closure captured: [handleSubmit_start] runs the
    code before [await getAnswerFromAI(...)] and [handleSubmit_settle]
    the code after it; [handleFileUpload_start] runs the code before
    [await file.arrayBuffer()], [handleFileUpload_buffer] the code from
    there to [await extractTextFromPDF(buffer)], and
    [handleFileUpload_extract] the rest.  The React
    setters are the functions [setPdfContent], [setMessages] (which takes
    the updater, as [setMessages(prev => ...)] does), [setQuestion] and
    [setIsLoading].

    The browser delivers an event only to an enabled element: [dispatch]
    returns [None] for an event on a disabled element, using the
    [disabled] attributes of lines 109, 153 and 158.  [Settle k model]
    resumes the [k]-th suspended handler; [model] is the Gemini model's
    behaviour for that request.  [app_step] and [reachable] are the step
    relation and its closure from [initialState].  Everything is proved
    against the interface [PdfUtilsApi]. *)

From stdpp Require Import base list relations strings.
From S2P Require Import Spec2Rocq JsString Promise PdfJs Extract Answer PdfUtils.

Module App.

(** [interface Message { text: string; isBot: boolean }] *)
Record Message := { text : jsstr; isBot : bool }.

#[export] Instance Message_eq_dec : EqDecision Message.
Proof. solve_decision. Defined.

(** A [File] from the input's [files] list: its [name] (the path the
    user chose) and [file.arrayBuffer()]. *)
Record File := { name : jsstr; arrayBuffer : promise ArrayBuffer }.

(** A handler invocation suspended at its [await], with the values its
    closure captured. *)
Inductive Suspended :=
| UploadAwait (file : File)              (* line 24: await file.arrayBuffer() *)
| ExtractAwait (buffer : ArrayBuffer)    (* line 25: await extractTextFromPDF(buffer) *)
| SubmitAwait (context question : jsstr). (* line 62: await getAnswerFromAI(...) *)

Record AppState := {
  pdfContent : jsstr;
  messages : list Message;
  question : jsstr;
  isLoading : bool;
  pending : list Suspended;
}.

(** Lines 11-14: the initial values of the state cells. *)
Definition initialState : AppState := {|
  pdfContent := []; messages := []; question := []; isLoading := false;
  pending := [] |}.

(** ** The React setters *)

Definition setPdfContent (v : jsstr) (s : AppState) : AppState :=
  {| pdfContent := v; messages := messages s; question := question s;
     isLoading := isLoading s; pending := pending s |}.
Definition setMessages (f : list Message → list Message) (s : AppState) : AppState :=
  {| pdfContent := pdfContent s; messages := f (messages s); question := question s;
     isLoading := isLoading s; pending := pending s |}.
Definition setQuestion (v : jsstr) (s : AppState) : AppState :=
  {| pdfContent := pdfContent s; messages := messages s; question := v;
     isLoading := isLoading s; pending := pending s |}.
Definition setIsLoading (v : bool) (s : AppState) : AppState :=
  {| pdfContent := pdfContent s; messages := messages s; question := question s;
     isLoading := v; pending := pending s |}.
Definition setPending (v : list Suspended) (s : AppState) : AppState :=
  {| pdfContent := pdfContent s; messages := messages s; question := question s;
     isLoading := isLoading s; pending := v |}.

(** ** Messages of the component *)

Definition UPLOAD_OK : jsstr :=
  js "PDF uploaded successfully! You can now ask questions about its content.".
Definition UPLOAD_ERROR : jsstr := js "Error processing PDF. Please try again.".
Definition UPLOAD_FIRST : jsstr := js "Please upload a PDF document first.".

Definition botMessage (t : jsstr) : Message := {| text := t; isBot := true |}.

Section Handlers.
Context `{PdfUtilsApi}.

(** [handleFileUpload], lines 19-22, up to the first [await]. *)
Definition handleFileUpload_start (files : list File) (s : AppState) : AppState :=
  match files with
  | [] => s
  | file :: _ => setPending (pending s ++ [UploadAwait file]) (setIsLoading true s)
  end.

(** [handleFileUpload], line 24 resumed once [file.arrayBuffer()] has
    settled: with the buffer it calls [extractTextFromPDF(buffer)] and
    awaits again (line 25); a rejection runs the [catch] and [finally]
    blocks (lines 33-40).  [extractTextFromPDF] is a function of the
    buffer, so the suspension keeps the buffer. *)
Definition handleFileUpload_buffer (file : File) (s : AppState) : AppState :=
  match arrayBuffer file with
  | Resolved buffer => setPending (pending s ++ [ExtractAwait buffer]) s
  | Rejected error => setIsLoading false (setMessages (λ _, [botMessage UPLOAD_ERROR]) s)
  end.

(** [handleFileUpload], lines 25-40, once [extractTextFromPDF(buffer)]
    has settled. *)
Definition handleFileUpload_extract (buffer : ArrayBuffer) (s : AppState) : AppState :=
  let s :=
    match api_extract buffer with
    | Resolved text => setMessages (λ _, [botMessage UPLOAD_OK]) (setPdfContent text s)
    | Rejected error => setMessages (λ _, [botMessage UPLOAD_ERROR]) s
    end in
  setIsLoading false s.

(** [handleSubmit], lines 44-59, up to the [await]. *)
Definition handleSubmit_start (s : AppState) : AppState :=
  if negb (truthy (trim (question s))) || negb (truthy (pdfContent s)) then
    setMessages (λ prev, prev ++ [botMessage UPLOAD_FIRST]) s
  else
    let userMessage := {| text := question s; isBot := false |} in
    let s := setIsLoading true (setMessages (λ prev, prev ++ [userMessage]) s) in
    setPending (pending s ++ [SubmitAwait (pdfContent s) (question s)]) s.

(** [handleSubmit], lines 61-82, once [getAnswerFromAI] has settled. *)
Definition handleSubmit_settle (model : GenerativeModel) (context q : jsstr)
    (s : AppState) : AppState :=
  let s :=
    match api_answer model context q with
    | Resolved answer => setMessages (λ prev, prev ++ [botMessage answer]) s
    | Rejected error => setMessages (λ prev, prev ++ [botMessage FALLBACK]) s
    end in
  setQuestion [] (setIsLoading false s).

(** ** The rendered [disabled] attributes *)

(** Line 109: the upload button. *)
Definition uploadButtonDisabled (s : AppState) : bool := isLoading s.
(** Line 153: the question input. *)
Definition inputDisabled (s : AppState) : bool :=
  isLoading s || negb (truthy (pdfContent s)).
(** Line 158: the send button (and so the form's implicit submission). *)
Definition submitDisabled (s : AppState) : bool :=
  isLoading s || negb (truthy (pdfContent s)) || negb (truthy (trim (question s))).

(** ** Events *)

Inductive Event :=
| ChangeQuestion (value : jsstr)      (* onChange of the input, line 151 *)
| ChooseFiles (files : list File)     (* onChange of the file input, line 103 *)
| Submit                              (* onSubmit of the form, line 146 *)
| Settle (k : nat) (model : GenerativeModel).

Definition resume (model : GenerativeModel) (c : Suspended) (s : AppState) : AppState :=
  match c with
  | UploadAwait file => handleFileUpload_buffer file s
  | ExtractAwait buffer => handleFileUpload_extract buffer s
  | SubmitAwait context q => handleSubmit_settle model context q s
  end.

Definition dispatch (e : Event) (s : AppState) : option AppState :=
  match e with
  | ChangeQuestion v => if inputDisabled s then None else Some (setQuestion v s)
  | ChooseFiles files =>
      if uploadButtonDisabled s then None else Some (handleFileUpload_start files s)
  | Submit => if submitDisabled s then None else Some (handleSubmit_start s)
  | Settle k model =>
      match pending s !! k with
      | Some c => Some (resume model c (setPending (delete k (pending s)) s))
      | None => None
      end
  end.

Inductive app_step : AppState → AppState → Prop :=
| app_step_event e s s' : dispatch e s = Some s' → app_step s s'.

Definition reachable (s : AppState) : Prop := rtc app_step initialState s.

(** A run of events; events on disabled elements are dropped. *)
Fixpoint run (es : list Event) (s : AppState) : AppState :=
  match es with
  | [] => s
  | e :: es' => run es' (default s (dispatch e s))
  end.
End Handlers.

(** ** The shape of the transcript *)

(** A suspended upload (at either of its awaits). *)
Definition upload_pending (c : Suspended) : bool :=
  if c is SubmitAwait _ _ then false else true.

(** Alternating user question / bot answer pairs. *)
Fixpoint exchanges (ms : list Message) : Prop :=
  match ms with
  | [] => True
  | u :: b :: rest => isBot u = false ∧ isBot b = true ∧ exchanges rest
  | [_] => False
  end.

(** Before any upload has settled the transcript is empty, no text is
    loaded and only uploads can be in flight; afterwards it is a bot
    header followed by exchanges, and by the question of the request in
    flight, if any. *)
Definition transcript_ok (s : AppState) : Prop :=
  match messages s with
  | [] => pdfContent s = [] ∧ ∀ c, c ∈ pending s → upload_pending c = true
  | h :: rest =>
      isBot h = true ∧
      match pending s with
      | [SubmitAwait _ q] =>
          ∃ ex, rest = ex ++ [{| text := q; isBot := false |}] ∧ exchanges ex
      | _ => exchanges rest
      end
  end.

(** What a bubble of the transcript shows: a bot message is never empty,
    a user message is never blank. *)
Definition message_shown (m : Message) : Prop :=
  if isBot m then text m ≠ [] else all_ws (text m) = false.

(** The invariant of the component. *)
Record app_inv (s : AppState) : Prop := {
  inv_busy : isLoading s = bool_decide (pending s ≠ []);
  inv_single : length (pending s) ≤ 1;
  inv_trimmed : trim (pdfContent s) = pdfContent s;
  inv_bot_only : pdfContent s = [] → Forall (λ m, isBot m = true) (messages s);
  inv_transcript : transcript_ok s;
  inv_shown : Forall message_shown (messages s);
  inv_request : ∀ context q, SubmitAwait context q ∈ pending s →
    context = pdfContent s ∧ context ≠ [] ∧ all_ws q = false;
}.

(** The request-in-flight part of the invariant, when no request is in
    flight. *)
Ltac no_request :=
  let H := fresh in
  intros ?? H; simpl in H; rewrite ?list_elem_of_singleton in H;
  first [by apply not_elem_of_nil in H | discriminate H].

Lemma exchanges_snoc ex q a :
  exchanges ex →
  exchanges (ex ++ [{| text := q; isBot := false |}; botMessage a]).
Proof.
  revert ex. fix IH 1. intros [|u [|b rest]] Hex; simpl in *; [done|done|].
  destruct Hex as (Hu & Hb & Hrest). repeat split; [done|done|]. by apply IH.
Qed.

Lemma initial_inv : app_inv initialState.
Proof.
  split; simpl; try (done || lia); [|no_request].
  split; [done|]. intros c Hc. by apply not_elem_of_nil in Hc.
Qed.


(** Compute the React setters away. *)
Ltac simpl_setters :=
  unfold setPdfContent, setMessages, setQuestion, setIsLoading, setPending; cbn.

Section Preservation.
Context `{PdfUtilsApi}.

Lemma inv_idle s : app_inv s → isLoading s = false → pending s = [].
Proof.
  intros Hi Hl. pose proof (inv_busy _ Hi) as Hb. rewrite Hl in Hb.
  destruct (pending s); [done|]. by rewrite bool_decide_eq_true_2 in Hb.
Qed.

Lemma inv_pending_lookup s k c :
  app_inv s → pending s !! k = Some c → k = 0 ∧ pending s = [c].
Proof.
  intros Hi Hk. pose proof (inv_single _ Hi) as Hlen.
  destruct (pending s) as [|c0 [|c1 rest]]; simpl in *; [done| |lia].
  destruct k; simpl in Hk; [|by rewrite lookup_nil in Hk]. by injection Hk as ->.
Qed.

Lemma setQuestion_inv v s : app_inv s → app_inv (setQuestion v s).
Proof. intros []. by split. Qed.

Lemma upload_start_inv files s :
  app_inv s → isLoading s = false → app_inv (handleFileUpload_start files s).
Proof.
  intros Hi Hl. destruct files as [|f files]; [done|].
  pose proof (inv_idle _ Hi Hl) as Hp. destruct Hi as [_ _ Htr Hbot Hok Hsh _].
  split; simpl; rewrite ?Hp; try done; [|no_request]. unfold transcript_ok in *; simpl.
  destruct (messages s); [|by rewrite Hp in Hok].
  destruct Hok as [Hc _]. split; [done|]. by intros c ->%list_elem_of_singleton.
Qed.

Lemma submit_start_inv s :
  app_inv s → submitDisabled s = false → app_inv (handleSubmit_start s).
Proof.
  intros Hi Hd. unfold submitDisabled in Hd.
  destruct (isLoading s) eqn:Hl, (truthy (pdfContent s)) eqn:Hc,
    (truthy (trim (question s))) eqn:Hq; try discriminate.
  unfold handleSubmit_start. rewrite Hc, Hq. simpl.
  pose proof (inv_idle _ Hi Hl) as Hp. destruct Hi as [_ _ Htr Hbot Hok Hsh _].
  split; simpl; rewrite ?Hp; try done; unfold transcript_ok in *; simpl.
  - intros Hnil. by rewrite Hnil in Hc.
  - destruct (messages s) as [|h rest]; simpl.
    + destruct Hok as [Hnil _]. by rewrite Hnil in Hc.
    + rewrite Hp in Hok. destruct Hok as [Hh Hex]. split; [done|]. eauto.
  - apply Forall_app. split; [done|]. constructor; [|done].
    unfold message_shown; simpl. rewrite truthy_trim in Hq. by destruct (all_ws _).
  - intros ctx q' [= -> ->]%list_elem_of_singleton. split_and!; [done | intros Hn; by rewrite Hn in Hc |].
    rewrite truthy_trim in Hq. by destruct (all_ws _).
Qed.

(** The two ways reading the file settles. *)
Lemma handleFileUpload_buffer_cases file s :
  (∃ buffer, handleFileUpload_buffer file s = setPending (pending s ++ [ExtractAwait buffer]) s) ∨
  handleFileUpload_buffer file s =
    setIsLoading false (setMessages (λ _, [botMessage UPLOAD_ERROR]) s).
Proof.
  unfold handleFileUpload_buffer. destruct (arrayBuffer file) as [b|e]; [left; eauto | by right].
Qed.

(** The two ways the extraction settles. *)
Lemma handleFileUpload_extract_cases buffer s :
  (∃ t, trim t = t ∧
     handleFileUpload_extract buffer s =
       setIsLoading false (setMessages (λ _, [botMessage UPLOAD_OK]) (setPdfContent t s))) ∨
  handleFileUpload_extract buffer s =
    setIsLoading false (setMessages (λ _, [botMessage UPLOAD_ERROR]) s).
Proof.
  unfold handleFileUpload_extract. pose proof (api_extract_outcome buffer) as Ho.
  destruct (api_extract buffer) as [t|e]; [left; eauto | by right].
Qed.

(** A request settles by appending the answer as a bot message. *)
Lemma handleSubmit_settle_answer model context q s answer :
  api_answer model context q = Resolved answer →
  handleSubmit_settle model context q s =
    setQuestion [] (setIsLoading false (setMessages (λ prev, prev ++ [botMessage answer]) s)).
Proof. intros Ha. unfold handleSubmit_settle. by rewrite Ha. Qed.

(** Whatever the answer, a request settles by appending one non-empty bot
    message. *)
Lemma handleSubmit_settle_appends model context q s :
  ∃ answer, answer ≠ [] ∧ handleSubmit_settle model context q s =
    setQuestion [] (setIsLoading false (setMessages (λ prev, prev ++ [botMessage answer]) s)).
Proof.
  unfold handleSubmit_settle. destruct (api_answer _ _ _) as [a|e] eqn:Ha.
  - exists a. split; [by eapply api_answer_not_nil | done].
  - exists FALLBACK. split; [apply FALLBACK_not_nil | done].
Qed.

(** An upload that ends, with either message, keeps the invariant. *)
Lemma upload_end_inv (s : AppState) (t : jsstr) (ok : bool) :
  app_inv s → trim t = t →
  app_inv (setIsLoading false (setMessages (λ _ : list Message, [botMessage (if ok then UPLOAD_OK else UPLOAD_ERROR)])
             (if ok then setPdfContent t (setPending [] s) else setPending [] s))).
Proof.
  intros [_ _ Htr Hbot Hok Hsh _] Ht.
  destruct ok; split; simpl; try (done || lia || no_request);
    unfold transcript_ok; simpl; try split; try done; repeat constructor;
    unfold message_shown; simpl; discriminate.
Qed.

Lemma upload_extract_inv buffer s :
  app_inv s → app_inv (handleFileUpload_extract buffer (setPending [] s)).
Proof.
  intros Hi. destruct (handleFileUpload_extract_cases buffer (setPending [] s))
    as [(t & Ht & ->) | ->]; [apply (upload_end_inv s t true) | apply (upload_end_inv s ([] : jsstr) false)]; done.
Qed.

Lemma upload_buffer_inv file s :
  app_inv s → pending s = [UploadAwait file] →
  app_inv (handleFileUpload_buffer file (setPending [] s)).
Proof.
  intros Hi Hp. destruct (handleFileUpload_buffer_cases file (setPending [] s)) as [[b ->] | ->];
    [|by apply (upload_end_inv s ([] : jsstr) false)].
  destruct Hi as [Hb _ Htr Hbot Hok Hsh _]. rewrite Hp in Hb.
  split; simpl; try (done || lia || no_request).
  unfold transcript_ok in *; simpl. rewrite Hp in Hok. destruct (messages s); [|done].
  destruct Hok as [Hc _]. split; [done|]. by intros c ->%list_elem_of_singleton.
Qed.

Lemma submit_settle_inv model context q s :
  app_inv s → pending s = [SubmitAwait context q] →
  app_inv (handleSubmit_settle model context q (setPending [] s)).
Proof.
  intros [_ _ Htr Hbot Hok Hsh _] Hp.
  destruct (handleSubmit_settle_appends model context q (setPending [] s))
    as (a & Ha & ->).
  unfold transcript_ok in Hok. rewrite Hp in Hok.
  destruct (messages s) as [|h rest] eqn:Hm.
  { destruct Hok as [_ Hc]. specialize (Hc (SubmitAwait context q)).
    by rewrite list_elem_of_singleton in Hc; discriminate Hc. }
  destruct Hok as (Hh & ex & -> & Hex).
  split; simpl; try (done || lia || no_request).
  - intros Hnil. exfalso. specialize (Hbot Hnil).
    apply Forall_cons in Hbot as [_ Hbot]. apply Forall_app in Hbot as [_ Hu].
    by inversion Hu.
  - unfold transcript_ok; simpl. rewrite Hm. simpl. split; [done|].
    rewrite <- app_assoc. by apply exchanges_snoc.
  - rewrite Hm. apply Forall_app. split; [done|]. by repeat constructor.
Qed.

(** Every delivered event preserves the invariant. *)
Lemma dispatch_inv e s s' : app_inv s → dispatch e s = Some s' → app_inv s'.
Proof.
  intros Hi. destruct e as [v|files| |k model]; simpl.
  - destruct (inputDisabled s); intros [= <-]. by apply setQuestion_inv.
  - destruct (uploadButtonDisabled s) eqn:Hd; intros [= <-]. by apply upload_start_inv.
  - destruct (submitDisabled s) eqn:Hd; intros [= <-]. by apply submit_start_inv.
  - destruct (pending s !! k) as [c|] eqn:Hk; intros [= <-].
    destruct (inv_pending_lookup _ _ _ Hi Hk) as [-> Hp]. rewrite Hp. simpl.
    destruct c; [by apply upload_buffer_inv | by apply upload_extract_inv | by apply submit_settle_inv].
Qed.

Lemma rtc_app_step_inv s s' : rtc app_step s s' → app_inv s → app_inv s'.
Proof.
  induction 1 as [|s0 s1 s2 [e ? ? Hd] _ IH]; [done|].
  intros Hi. apply IH. by eapply dispatch_inv.
Qed.

Lemma reachable_inv s : reachable s → app_inv s.
Proof. intros Hr. eapply rtc_app_step_inv; [exact Hr | apply initial_inv]. Qed.

Lemma reachable_step e s s' : reachable s → dispatch e s = Some s' → reachable s'.
Proof. intros Hr Hd. eapply rtc_r; [exact Hr | econstructor; exact Hd]. Qed.

(** Every event of the run is delivered (none hits a disabled element). *)
Fixpoint delivered (es : list Event) (s : AppState) : bool :=
  match es with
  | [] => true
  | e :: es' => match dispatch e s with Some s' => delivered es' s' | None => false end
  end.

Lemma reachable_run es s : reachable s → delivered es s = true → reachable (run es s).
Proof.
  revert s. induction es as [|e es IH]; intros s Hr Hd; [done|]. simpl in *.
  destruct (dispatch e s) as [s'|] eqn:He; [|discriminate].
  apply IH; [by eapply reachable_step | done].
Qed.

Lemma run_cons e es s s' : dispatch e s = Some s' → run (e :: es) s = run es s'.
Proof. intros He. simpl. by rewrite He. Qed.

(** Resuming a handler ends it, except for an upload whose file was read,
    which suspends again at the extraction. *)
Lemma resume_pending model c s :
  pending (resume model c s) = pending s ∨
  ∃ buffer, pending (resume model c s) = pending s ++ [ExtractAwait buffer].
Proof.
  destruct c as [f|b|ctx q]; cbn [resume].
  - destruct (handleFileUpload_buffer_cases f s) as [[b ->] | ->]; eauto.
  - destruct (handleFileUpload_extract_cases b s) as [(? & ? & ->) | ->]; by left.
  - destruct (handleSubmit_settle_appends model ctx q s) as (? & _ & ->). by left.
Qed.

(** An upload from an idle reachable state, once both its awaits have
    settled. *)
Lemma upload_run s file files model :
  reachable s → isLoading s = false →
  run [ChooseFiles (file :: files); Settle 0 model; Settle 0 model] s =
    match (buffer ← arrayBuffer file; api_extract buffer) with
    | Resolved t => {| pdfContent := t; messages := [botMessage UPLOAD_OK];
                       question := question s; isLoading := false; pending := [] |}
    | Rejected _ => {| pdfContent := pdfContent s; messages := [botMessage UPLOAD_ERROR];
                       question := question s; isLoading := false; pending := [] |}
    end.
Proof.
  intros Hr Hl. pose proof (inv_idle _ (reachable_inv _ Hr) Hl) as Hp.
  rewrite (run_cons _ _ _ (handleFileUpload_start (file :: files) s))
    by (simpl; unfold uploadButtonDisabled; by rewrite Hl).
  simpl. rewrite Hp. simpl. unfold handleFileUpload_buffer.
  destruct (arrayBuffer file) as [b|e]; simpl; [|by simpl_setters].
  unfold handleFileUpload_extract. destruct (api_extract b); by simpl_setters.
Qed.

Lemma resume_extract_pending model b s :
  pending (resume model (ExtractAwait b) s) = pending s.
Proof.
  cbn [resume]. by destruct (handleFileUpload_extract_cases b s) as [(? & ? & ->) | ->].
Qed.
End Preservation.

Section Properties.
Context `{PdfUtilsApi}.

(** Claim C4: invariant.  In every reachable state the busy flag
    [isLoading] is set exactly while a handler is suspended at its
    [await], and at most one handler is suspended: uploads and requests
    are serialised by the [disabled] attributes. *)
Theorem busy_flag_tracks_pending s :
  reachable s →
  isLoading s = bool_decide (pending s ≠ []) ∧ length (pending s) ≤ 1.
Proof. intros Hr. destruct (reachable_inv s Hr). done. Qed.

(** Claim C3: invariant.  In every reachable state the transcript is
    empty (before the first upload settles) or a bot message followed by
    alternating user question / bot answer pairs, ending with the
    question of the request in flight if there is one: messages are
    appended in the order of the interaction. *)
Theorem transcript_shape s : reachable s → transcript_ok s.
Proof. intros Hr. by destruct (reachable_inv s Hr). Qed.

(** While no document text is loaded the
    transcript holds no user message: no question was ever sent against
    an empty context. *)
Theorem no_user_message_without_document s :
  reachable s → pdfContent s = [] → Forall (λ m, isBot m = true) (messages s).
Proof. intros Hr. by destruct (reachable_inv s Hr). Qed.

(** Claim C11: safety.  No question is answered against an empty
    document text (section 3 of the spec): in every reachable state, a
    request in flight was sent with the document text currently loaded,
    which is non-empty, and with a non-blank question. *)
Theorem requests_use_loaded_document s context q :
  reachable s → SubmitAwait context q ∈ pending s →
  context = pdfContent s ∧ context ≠ [] ∧ all_ws q = false.
Proof. intros Hr. apply (inv_request _ (reachable_inv s Hr)). Qed.

(** Claim C12: safety.  The document text is written only by a
    successful extraction (section 5 of the spec): a step that changes
    [pdfContent] resumes an upload suspended at
    [await extractTextFromPDF(buffer)], and the new text is what that
    extraction resolved with. *)
Theorem pdfContent_written_by_extraction s s' :
  app_step s s' →
  pdfContent s' = pdfContent s ∨
  ∃ buffer, ExtractAwait buffer ∈ pending s ∧ api_extract buffer = Resolved (pdfContent s').
Proof.
  inversion 1 as [e ? ? Hd]; subst. destruct e as [v|files| |k model]; simpl in Hd.
  - destruct (inputDisabled s); [done|]. injection Hd as <-. by left.
  - destruct (uploadButtonDisabled s); [done|]. injection Hd as <-. left. by destruct files.
  - destruct (submitDisabled s); [done|]. injection Hd as <-. left. unfold handleSubmit_start.
    by destruct (_ || _).
  - destruct (pending s !! k) as [c|] eqn:Hk; [|done]. injection Hd as <-.
    destruct c as [f|b|ctx q]; cbn [resume].
    + left. by destruct (handleFileUpload_buffer_cases f (setPending (delete k (pending s)) s))
        as [[? ->] | ->].
    + unfold handleFileUpload_extract. destruct (api_extract b) eqn:He; [right | by left].
      exists b. split; [by eapply list_elem_of_lookup_2 | done].
    + left. by destruct (handleSubmit_settle_appends model ctx q (setPending (delete k (pending s)) s))
        as (? & _ & ->).
Qed.

(** Claim C25: invariant.  The document text held by the component is
    always trimmed. *)
Theorem pdfContent_trimmed s : reachable s → trim (pdfContent s) = pdfContent s.
Proof. intros Hr. by destruct (reachable_inv s Hr). Qed.

(** Claim C26: invariant.  In every reachable state no bubble of the
    transcript is empty: bot messages are non-empty (an empty model text
    is replaced by the fallback sentence) and user messages are not blank
    (the send button is disabled for a blank question). *)
Theorem transcript_bubbles_nonblank s :
  reachable s → Forall message_shown (messages s).
Proof. intros Hr. by destruct (reachable_inv s Hr). Qed.

(** Claim C20: safety.  Without document text the question can be
    neither typed nor sent: the browser delivers no [Submit] and no
    [ChangeQuestion], so no message is appended and the answer service
    is not called. *)
Theorem submit_blocked_without_document s v :
  pdfContent s = [] →
  dispatch Submit s = None ∧ dispatch (ChangeQuestion v) s = None.
Proof.
  intros Hc. simpl. unfold submitDisabled, inputDisabled. rewrite Hc.
  by rewrite !orb_true_r.
Qed.

(** A delivered [Submit] always takes the request
    path of [handleSubmit]: it appends the user's question and suspends
    on [getAnswerFromAI(pdfContent, question)]; the branch that appends
    "Please upload a PDF document first." is never taken from the UI. *)
Theorem submit_takes_request_path s s' :
  dispatch Submit s = Some s' →
  s' = {| pdfContent := pdfContent s;
          messages := messages s ++ [{| text := question s; isBot := false |}];
          question := question s; isLoading := true;
          pending := pending s ++ [SubmitAwait (pdfContent s) (question s)] |}.
Proof.
  simpl. unfold submitDisabled, handleSubmit_start.
  destruct (isLoading s), (truthy (pdfContent s)), (truthy (trim (question s)));
    simpl; by intros [= <-].
Qed.

(** Claim C36: functional.  Called with a loaded document and a blank
    question, [handleSubmit] tells the user to upload a document. *)
Theorem handleSubmit_blank_question s :
  truthy (pdfContent s) = true → all_ws (question s) = true →
  handleSubmit_start s = setMessages (λ prev, prev ++ [botMessage UPLOAD_FIRST]) s.
Proof. intros Hc Hq. unfold handleSubmit_start. by rewrite truthy_trim, Hq. Qed.

(** Claim C5: functional.  One question round from an idle reachable
    state with a loaded document: typing a non-blank question, sending
    it and letting the request settle appends the user's question and
    then the answer [getAnswerFromAI] gave for the held document text
    and that question, clears the input and the busy flag, and keeps
    the document. *)
Theorem question_round s q model answer :
  reachable s → isLoading s = false → pdfContent s ≠ [] → all_ws q = false →
  api_answer model (pdfContent s) q = Resolved answer →
  run [ChangeQuestion q; Submit; Settle 0 model] s =
    {| pdfContent := pdfContent s;
       messages := messages s ++ [{| text := q; isBot := false |}; botMessage answer];
       question := []; isLoading := false; pending := [] |}.
Proof.
  intros Hr Hl Hc Hq Ha.
  pose proof (inv_idle _ (reachable_inv _ Hr) Hl) as Hp.
  apply truthy_nonempty in Hc.
  rewrite (run_cons _ _ _ (setQuestion q s))
    by (simpl; unfold inputDisabled; by rewrite Hl, Hc).
  rewrite (run_cons _ _ _ (handleSubmit_start (setQuestion q s)))
    by (simpl; unfold submitDisabled; simpl; by rewrite Hl, Hc, truthy_trim, Hq).
  unfold handleSubmit_start. simpl. rewrite Hc, truthy_trim, Hq, Hp. simpl.
  rewrite (handleSubmit_settle_answer _ _ _ _ _ Ha).
  simpl_setters. by rewrite <- app_assoc.
Qed.

(** An upload from an idle reachable state whose
    file reads and whose text extracts replaces the document text by
    the extracted text and the transcript by the success message, once
    its two awaits have settled. *)
Theorem upload_success s file files model buffer t :
  reachable s → isLoading s = false →
  arrayBuffer file = Resolved buffer → api_extract buffer = Resolved t →
  run [ChooseFiles (file :: files); Settle 0 model; Settle 0 model] s =
    {| pdfContent := t; messages := [botMessage UPLOAD_OK];
       question := question s; isLoading := false; pending := [] |}.
Proof.
  intros Hr Hl Hb Ht. rewrite upload_run by done. rewrite Hb. simpl. by rewrite Ht.
Qed.

(** Claim C22: error.  An upload that fails (the file cannot be read or
    its text cannot be extracted) replaces the transcript by the error
    message but keeps the document text loaded before: questions are
    still answered against the previous document. *)
Theorem upload_failure_keeps_document s file files model e :
  reachable s → isLoading s = false →
  (buffer ← arrayBuffer file; api_extract buffer) = Rejected e →
  run [ChooseFiles (file :: files); Settle 0 model; Settle 0 model] s =
    {| pdfContent := pdfContent s; messages := [botMessage UPLOAD_ERROR];
       question := question s; isLoading := false; pending := [] |}.
Proof. intros Hr Hl He. rewrite upload_run by done. by rewrite He. Qed.

(** The [catch] branch of [handleSubmit] (lines 70-78)
    is dead code: [getAnswerFromAI] always resolves, and the message
    appended is the value it resolved with. *)
Theorem handleSubmit_catch_unreachable model context q s :
  ∃ answer, api_answer model context q = Resolved answer ∧
    handleSubmit_settle model context q s =
      setQuestion [] (setIsLoading false (setMessages (λ prev, prev ++ [botMessage answer]) s)).
Proof.
  destruct (api_answer_settles model context q) as [a Ha].
  exists a. split; [done|]. by apply handleSubmit_settle_answer.
Qed.

(** Claim C8: liveness.  From every reachable state, once the awaited
    promises settle the component is idle again: the busy flag is cleared
    and no handler is suspended, so the buttons are enabled. *)
Theorem settles_to_idle s :
  reachable s →
  ∃ s', rtc app_step s s' ∧ isLoading s' = false ∧ pending s' = [].
Proof.
  intros Hr. set (model := failing_model).
  assert (Hstep : ∀ s c, reachable s → pending s = [c] →
    reachable (resume model c (setPending [] s)) ∧ app_step s (resume model c (setPending [] s))).
  { intros s0 c Hr0 Hp0.
    assert (Hd : dispatch (Settle 0 model) s0 = Some (resume model c (setPending [] s0)))
      by (simpl; by rewrite Hp0).
    split; [by eapply reachable_step | by econstructor]. }
  assert (Hidle : ∀ s, reachable s → pending s = [] → isLoading s = false ∧ pending s = []).
  { intros s0 Hr0 Hp0. by rewrite (inv_busy _ (reachable_inv _ Hr0)), Hp0. }
  pose proof (inv_single _ (reachable_inv s Hr)) as Hlen.
  destruct (pending s) as [|c [|c' rest]] eqn:Hp; simpl in Hlen; [|clear Hlen|lia].
  { exists s. split; [done | by apply Hidle]. }
  destruct (Hstep s c Hr Hp) as [Hr1 Hs1].
  destruct (resume_pending model c (setPending [] s)) as [Hp1 | [b Hp1]]; simpl in Hp1.
  - eexists. split; [by apply rtc_once | by apply Hidle].
  - destruct (Hstep _ _ Hr1 Hp1) as [Hr2 Hs2]. eexists.
    split; [eapply rtc_l; [exact Hs1 | by apply rtc_once]|].
    apply Hidle; [done|]. by rewrite resume_extract_pending.
Qed.

(** Claim C27: functional.  Uploading a PDF with no text (or only white
    space) reports success, "You can now ask questions about its
    content", while the question input stays disabled because the
    extracted text is empty. *)
Theorem blank_pdf_upload_blocks_questions s file files model buffer :
  reachable s → isLoading s = false →
  arrayBuffer file = Resolved buffer → api_extract buffer = Resolved [] →
  messages (run [ChooseFiles (file :: files); Settle 0 model; Settle 0 model] s) =
    [botMessage UPLOAD_OK] ∧
  inputDisabled (run [ChooseFiles (file :: files); Settle 0 model; Settle 0 model] s) = true.
Proof.
  intros Hr Hl Hb Ht. rewrite upload_run by done. rewrite Hb. simpl. by rewrite Ht.
Qed.
End Properties.

(** ** App with the real [pdfUtils] *)

Section Composition.
Context {pdfjs : PdfJsLib}.

(** Claim C31: functional.  App composed with [pdfUtils]: uploading a
    file whose bytes pdf.js opens and whose pages [1..numPages] all read
    stores as the document text exactly what section 8 of the spec
    prescribes, the trimmed page texts joined by single spaces, and
    reports success. *)
Theorem upload_stores_extracted_text s file files model buffer pdf ts :
  @reachable pdfUtils s → isLoading s = false →
  arrayBuffer file = Resolved buffer → getDocument buffer = Resolved pdf →
  page_texts pdf = Resolved ts →
  pdfContent (@run pdfUtils [ChooseFiles (file :: files); Settle 0 model; Settle 0 model] s) =
    trim (join_strs (js " ") ts) ∧
  messages (@run pdfUtils [ChooseFiles (file :: files); Settle 0 model; Settle 0 model] s) =
    [botMessage UPLOAD_OK].
Proof.
  intros Hr Hl Hb Hd Hts. rewrite (upload_run (H := pdfUtils)) by done. rewrite Hb.
  cbn [mbind promise_bind]. change (@api_extract pdfUtils buffer) with (extractTextFromPDF buffer).
  by rewrite (extract_success buffer pdf ts Hd Hts).
Qed.
End Composition.

(** ** The scenario of section 8 of the spec, on concrete libraries *)

(** A one-page document holding "The sky is blue."; the empty buffer is
    not a PDF. *)
Definition sky_decode (b : ArrayBuffer) : option MemDocument :=
  match b with
  | [] => None
  | _ => Some {| mem_pages := [Some [TextItem (js "The sky is blue.")]] |}
  end.

Abbreviation SkyUtils := (@pdfUtils (MemPdf sky_decode)).

(** The bytes ["%PDF"]. *)
Definition sky_file : File := {| name := js "sky.pdf"; arrayBuffer := Resolved [Byte.x25; Byte.x50; Byte.x44; Byte.x46] |}.
Definition empty_file : File := {| name := js "empty.pdf"; arrayBuffer := Resolved [] |}.

Definition SKY_QUESTION : jsstr := js "What color is the sky?".

(** A model that answers "Blue." to exactly the prompt built from the
    document text and the question, and an empty text otherwise. *)
Definition sky_model : GenerativeModel := {|
  generateContent p :=
    Resolved {| response := {| Answer.text :=
      Resolved (if decide (p = prompt (js "The sky is blue.") SKY_QUESTION)
                then js "Blue." else []) |} |} |}.

Definition sky_events : list Event :=
  [ChooseFiles [sky_file]; Settle 0 sky_model; Settle 0 sky_model;
   ChangeQuestion SKY_QUESTION; Submit; Settle 0 sky_model].

(** The end-to-end scenario: uploading the
    one-page document and asking "What color is the sky?" sends the
    document text and the question to the model (which answers only that
    prompt) and leaves the transcript upload message, user question,
    answer, in that order. *)
Example sky_scenario :
  @run SkyUtils sky_events initialState =
    {| pdfContent := js "The sky is blue.";
       messages := [botMessage UPLOAD_OK; {| text := SKY_QUESTION; isBot := false |};
                    botMessage (js "Blue.")];
       question := []; isLoading := false; pending := [] |}.
Proof. vm_compute. reflexivity. Qed.

(** ** Witnesses *)

(** States of the scenario: after the upload, after typing the question,
    while the request is in flight; and after a failed first upload. *)
Definition sky_uploaded : AppState :=
  @run SkyUtils [ChooseFiles [sky_file]; Settle 0 sky_model; Settle 0 sky_model] initialState.
Definition sky_ready : AppState :=
  @run SkyUtils [ChooseFiles [sky_file]; Settle 0 sky_model; Settle 0 sky_model;
                 ChangeQuestion SKY_QUESTION] initialState.
Definition sky_awaiting : AppState :=
  @run SkyUtils [ChooseFiles [sky_file]; Settle 0 sky_model; Settle 0 sky_model;
                 ChangeQuestion SKY_QUESTION; Submit] initialState.
Definition sky_reading : AppState :=
  @run SkyUtils [ChooseFiles [sky_file]; Settle 0 sky_model] initialState.
Definition failed_first : AppState :=
  @run SkyUtils [ChooseFiles [empty_file]; Settle 0 sky_model; Settle 0 sky_model] initialState.

Ltac reach := apply reachable_run; [apply rtc_refl | vm_compute; reflexivity].

Lemma busy_flag_tracks_pending_witness :
  @reachable SkyUtils sky_awaiting ∧
  isLoading sky_awaiting = bool_decide (pending sky_awaiting ≠ []) ∧
  length (pending sky_awaiting) ≤ 1.
Proof.
  split; [unfold sky_awaiting; reach|].
  apply (busy_flag_tracks_pending (H := SkyUtils)). unfold sky_awaiting. reach.
Defined.

Lemma transcript_shape_witness :
  @reachable SkyUtils sky_awaiting ∧ transcript_ok sky_awaiting.
Proof.
  split; [unfold sky_awaiting; reach|].
  apply (transcript_shape (H := SkyUtils)). unfold sky_awaiting. reach.
Defined.

Lemma pdfContent_trimmed_witness :
  @reachable SkyUtils sky_uploaded ∧ trim (pdfContent sky_uploaded) = pdfContent sky_uploaded.
Proof.
  split; [unfold sky_uploaded; reach|].
  apply (pdfContent_trimmed (H := SkyUtils)). unfold sky_uploaded. reach.
Defined.

Lemma submit_blocked_without_document_witness :
  pdfContent initialState = [] ∧
  @dispatch SkyUtils Submit initialState = None ∧
  @dispatch SkyUtils (ChangeQuestion SKY_QUESTION) initialState = None.
Proof.
  split; [reflexivity|]. apply (submit_blocked_without_document (H := SkyUtils)). reflexivity.
Defined.

Lemma handleSubmit_blank_question_witness :
  truthy (pdfContent sky_uploaded) = true ∧ all_ws (question sky_uploaded) = true ∧
  handleSubmit_start sky_uploaded =
    setMessages (λ prev, prev ++ [botMessage UPLOAD_FIRST]) sky_uploaded.
Proof.
  split; [vm_compute; reflexivity|]. split; [vm_compute; reflexivity|].
  apply handleSubmit_blank_question; vm_compute; reflexivity.
Defined.

Lemma question_round_witness :
  @run SkyUtils [ChangeQuestion SKY_QUESTION; Submit; Settle 0 sky_model] sky_uploaded =
    {| pdfContent := pdfContent sky_uploaded;
       messages := messages sky_uploaded ++
         [{| text := SKY_QUESTION; isBot := false |}; botMessage (js "Blue.")];
       question := []; isLoading := false; pending := [] |}.
Proof.
  apply (question_round (H := SkyUtils)); unfold sky_uploaded;
    [reach | vm_compute; reflexivity | vm_compute; discriminate
    | vm_compute; reflexivity | vm_compute; reflexivity].
Defined.

Lemma upload_failure_keeps_document_witness :
  @run SkyUtils [ChooseFiles [empty_file]; Settle 0 sky_model; Settle 0 sky_model] sky_uploaded =
    {| pdfContent := js "The sky is blue."; messages := [botMessage UPLOAD_ERROR];
       question := []; isLoading := false; pending := [] |}.
Proof.
  apply (upload_failure_keeps_document (H := SkyUtils) sky_uploaded empty_file [] sky_model
           (mkError EXTRACT_ERROR));
    unfold sky_uploaded; [reach | vm_compute; reflexivity | vm_compute; reflexivity].
Defined.
Lemma transcript_bubbles_nonblank_witness :
  @reachable SkyUtils sky_awaiting ∧ Forall message_shown (messages sky_awaiting).
Proof.
  split; [unfold sky_awaiting; reach|].
  apply (transcript_bubbles_nonblank (H := SkyUtils)). unfold sky_awaiting. reach.
Defined.

Lemma settles_to_idle_witness :
  @reachable SkyUtils sky_awaiting ∧
  ∃ s', @rtc _ (@app_step SkyUtils) sky_awaiting s' ∧ isLoading s' = false ∧ pending s' = [].
Proof.
  split; [unfold sky_awaiting; reach|].
  apply (settles_to_idle (H := SkyUtils)). unfold sky_awaiting. reach.
Defined.

Lemma requests_use_loaded_document_witness :
  @reachable SkyUtils sky_awaiting ∧
  SubmitAwait (js "The sky is blue.") SKY_QUESTION ∈ pending sky_awaiting ∧
  js "The sky is blue." = pdfContent sky_awaiting ∧ js "The sky is blue." ≠ [] ∧
  all_ws SKY_QUESTION = false.
Proof.
  assert (Hr : @reachable SkyUtils sky_awaiting) by (unfold sky_awaiting; reach).
  assert (Hp : SubmitAwait (js "The sky is blue.") SKY_QUESTION ∈ pending sky_awaiting)
    by (vm_compute; left).
  split; [exact Hr|]. split; [exact Hp|].
  apply (requests_use_loaded_document (H := SkyUtils)); [exact Hr | exact Hp].
Defined.

Lemma pdfContent_written_by_extraction_witness :
  @app_step SkyUtils sky_reading sky_uploaded ∧
  (pdfContent sky_uploaded = pdfContent sky_reading ∨
   ∃ buffer, ExtractAwait buffer ∈ pending sky_reading ∧
     @api_extract SkyUtils buffer = Resolved (pdfContent sky_uploaded)).
Proof.
  assert (Hs : @app_step SkyUtils sky_reading sky_uploaded)
    by (apply (app_step_event (Settle 0 sky_model)); vm_compute; reflexivity).
  split; [exact Hs|]. apply (pdfContent_written_by_extraction (H := SkyUtils)). exact Hs.
Defined.

Lemma upload_stores_extracted_text_witness :
  pdfContent (@run SkyUtils [ChooseFiles [sky_file]; Settle 0 sky_model; Settle 0 sky_model]
                initialState) = trim (join_strs (js " ") [js "The sky is blue."]) ∧
  messages (@run SkyUtils [ChooseFiles [sky_file]; Settle 0 sky_model; Settle 0 sky_model]
              initialState) = [botMessage UPLOAD_OK].
Proof.
  apply (upload_stores_extracted_text (pdfjs := MemPdf sky_decode) initialState sky_file []
           sky_model [Byte.x25; Byte.x50; Byte.x44; Byte.x46]
           {| mem_pages := [Some [TextItem (js "The sky is blue.")]] |});
    [apply rtc_refl | reflexivity | reflexivity | reflexivity | vm_compute; reflexivity].
Defined.

(** A decoder whose documents hold one page of white space only. *)
Definition blank_decode (b : ArrayBuffer) : option MemDocument :=
  match b with
  | [] => None
  | _ => Some {| mem_pages := [Some [TextItem (js "   ")]] |}
  end.

Abbreviation BlankUtils := (@pdfUtils (MemPdf blank_decode)).

Lemma blank_pdf_upload_blocks_questions_witness :
  messages (@run BlankUtils [ChooseFiles [sky_file]; Settle 0 sky_model; Settle 0 sky_model] initialState) =
    [botMessage UPLOAD_OK] ∧
  inputDisabled (@run BlankUtils [ChooseFiles [sky_file]; Settle 0 sky_model; Settle 0 sky_model] initialState) = true.
Proof.
  apply (blank_pdf_upload_blocks_questions (H := BlankUtils) initialState sky_file [] sky_model
           [Byte.x25; Byte.x50; Byte.x44; Byte.x46]);
    [apply rtc_refl | reflexivity | reflexivity | vm_compute; reflexivity].
Defined.
End App.
