(* ===== verification/View.v ===== *)
(** * View: the JSX of src/src/App.tsx (lines 89-169) and of
    src/src/components/ChatMessage.tsx

    The JSX is modelled as a virtual DOM: elements with their props
    ([Attr]: [className], [type], [accept], [value], [placeholder],
    [disabled], [ref], React's [key] and the handler props, the handlers
    named by [Handler]), icons with their size, and text nodes; template
    literals are evaluated code unit for code unit.  [renderApp] is the
    page [App] returns; [renderMessage] is the body of [messages.map]
    (lines 120-142); [ChatMessage] is the component of ChatMessage.tsx,
    which [App] does not use, translated from its own JSX and template
    literals.  The theorems show that a rendered row
    determines its message, that the rows carry distinct keys, that the
    two renderings differ only in their icons, and what the button labels
    show.  What the browser does with the page is in [Page.v]. *)

From stdpp Require Import base list strings.
From S2P Require Import Spec2Rocq JsString PdfUtils App.
Import App.

(** The lucide-react icons the two files import. *)
Inductive Icon := MessageCircle | User | Send | Upload.

#[export] Instance Icon_eq_dec : EqDecision Icon.
Proof. solve_decision. Defined.

(** The two refs of [App] (lines 15-16). *)
Inductive Ref := fileInputRef | messagesEndRef.

#[export] Instance Ref_eq_dec : EqDecision Ref.
Proof. solve_decision. Defined.

(** The event handlers the JSX installs. *)
Inductive Handler :=
| handleFileUploadH        (* onChange={handleFileUpload}, line 103 *)
| clickFileInputH          (* onClick={() => fileInputRef.current?.click()}, line 108 *)
| handleSubmitH            (* onSubmit={handleSubmit}, line 146 *)
| setQuestionFromInputH.   (* onChange={(e) => setQuestion(e.target.value)}, line 151 *)

(** The values of the [type] prop the JSX uses. *)
Inductive InputType := type_file | type_text | type_submit.

#[export] Instance InputType_eq_dec : EqDecision InputType.
Proof. solve_decision. Defined.

(** The attributes (React props) the JSX sets; [AKey] is React's [key]. *)
Inductive Attr :=
| AKey (k : nat)
| AClass (className : jsstr)
| AType (type_ : InputType)
| AAccept (accept : jsstr)
| AValue (value : jsstr)
| APlaceholder (placeholder : jsstr)
| ADisabled (disabled : bool)
| ARef (r : Ref)
| AOnChange (h : Handler)
| AOnClick (h : Handler)
| AOnSubmit (h : Handler).

Inductive VNode :=
| Elem (tag : jsstr) (attrs : list Attr) (children : list VNode)
| IconNode (icon : Icon) (size : Z)
| TextNode (t : jsstr).

(** [`flex items-start gap-2 ${isBot ? 'flex-row' : 'flex-row-reverse'}`] *)
Definition rowClass (isBot : bool) : jsstr :=
  js "flex items-start gap-2 " ++ (if isBot then js "flex-row" else js "flex-row-reverse").

(** [`p-2 rounded-full ${isBot ? 'bg-blue-100' : 'bg-gray-100'}`] *)
Definition avatarClass (isBot : bool) : jsstr :=
  js "p-2 rounded-full " ++ (if isBot then js "bg-blue-100" else js "bg-gray-100").

(** [`max-w-[80%] p-3 rounded-lg ${isBot ? 'bg-blue-100' : 'bg-gray-100'}`] *)
Definition bubbleClass (isBot : bool) : jsstr :=
  js "max-w-[80%] p-3 rounded-lg " ++ (if isBot then js "bg-blue-100" else js "bg-gray-100").

(** App.tsx lines 120-142: the element [messages.map] builds for the
    message at [index]. *)
Definition renderMessage (index : nat) (message : Message) : VNode :=
  Elem (js "div") [AKey index; AClass (rowClass (isBot message))]
    [Elem (js "div") [AClass (avatarClass (isBot message))]
       [if isBot message then IconNode Send 20 else IconNode Upload 20];
     Elem (js "div") [AClass (bubbleClass (isBot message))]
       [Elem (js "p") [AClass (js "text-sm text-gray-800")] [TextNode (text message)]]].

(** App.tsx line 120: [messages.map((message, index) => ...)]. *)
Definition renderTranscript (messages : list Message) : list VNode :=
  imap renderMessage messages.

(** ChatMessage.tsx lines 9-22, with its own template literals (lines 11,
    12 and 15-17). *)
Definition ChatMessage (message : jsstr) (isBot : bool) : VNode :=
  Elem (js "div")
    [AClass (js "flex items-start gap-2 " ++ (if isBot then js "flex-row" else js "flex-row-reverse"))]
    [Elem (js "div")
       [AClass (js "p-2 rounded-full " ++ (if isBot then js "bg-blue-100" else js "bg-gray-100"))]
       [if isBot then IconNode MessageCircle 20 else IconNode User 20];
     Elem (js "div")
       [AClass (js "max-w-[80%] p-3 rounded-lg " ++ (if isBot then js "bg-blue-100" else js "bg-gray-100"))]
       [Elem (js "p") [AClass (js "text-sm text-gray-800")] [TextNode message]]].

(** Line 113: the upload button's label. *)
Definition uploadButtonLabel (s : AppState) : jsstr :=
  if isLoading s then js "Processing..." else js "Upload PDF".

(** Line 162: the send button's label. *)
Definition sendButtonLabel (s : AppState) : jsstr :=
  if isLoading s then js "Processing..." else js "Send".

(** Lines 89-169: the page [App] returns, with the [disabled] and [value]
    props computed from the state as the JSX writes them. *)
Definition renderApp (s : AppState) : VNode :=
  Elem (js "div") [AClass (js "min-h-screen bg-gray-50 flex flex-col")]
   [Elem (js "header") [AClass (js "bg-white shadow-sm py-4")]
     [Elem (js "div") [AClass (js "max-w-4xl mx-auto px-4")]
       [Elem (js "h1") [AClass (js "text-2xl font-semibold text-gray-800")]
         [TextNode (js "PDF Chatbot")]]];
    Elem (js "main") [AClass (js "flex-1 max-w-4xl mx-auto w-full px-4 py-8")]
     [Elem (js "div") [AClass (js "bg-white rounded-lg shadow-md p-6 mb-6")]
       [Elem (js "div") [AClass (js "flex items-center justify-center border-2 border-dashed border-gray-300 rounded-lg p-6")]
         [Elem (js "input") [AType type_file; AAccept (js ".pdf");
                             AOnChange handleFileUploadH; ARef fileInputRef;
                             AClass (js "hidden")] [];
          Elem (js "button") [AOnClick clickFileInputH; ADisabled (isLoading s);
                              AClass (js "flex items-center gap-2 px-4 py-2 bg-blue-600 text-white rounded-md hover:bg-blue-700 transition-colors disabled:opacity-50")]
            [IconNode Upload 20; TextNode (uploadButtonLabel s)]]];
      Elem (js "div") [AClass (js "bg-white rounded-lg shadow-md h-[400px] mb-6 flex flex-col")]
       [Elem (js "div") [AClass (js "flex-1 overflow-y-auto p-4 space-y-4")]
          (renderTranscript (messages s) ++ [Elem (js "div") [ARef messagesEndRef] []]);
        Elem (js "form") [AOnSubmit handleSubmitH; AClass (js "p-4 border-t")]
         [Elem (js "div") [AClass (js "flex gap-2")]
           [Elem (js "input") [AType type_text; AValue (question s);
                               AOnChange setQuestionFromInputH;
                               APlaceholder (js "Ask a question about the PDF...");
                               ADisabled (isLoading s || negb (truthy (pdfContent s)));
                               AClass (js "flex-1 px-4 py-2 border rounded-md focus:outline-none focus:ring-2 focus:ring-blue-500 disabled:opacity-50")] [];
            Elem (js "button") [AType type_submit;
                                ADisabled (isLoading s || negb (truthy (pdfContent s)) ||
                                           negb (truthy (trim (question s))));
                                AClass (js "px-4 py-2 bg-blue-600 text-white rounded-md hover:bg-blue-700 transition-colors flex items-center gap-2 disabled:opacity-50")]
              [IconNode Send 20; TextNode (sendButtonLabel s)]]]]]].

(** ** Reading the rendered tree *)

Definition attr_class (a : Attr) : option jsstr :=
  match a with AClass c => Some c | _ => None end.
Definition attr_key (a : Attr) : option nat :=
  match a with AKey k => Some k | _ => None end.

Definition node_attrs (v : VNode) : list Attr :=
  match v with Elem _ attrs _ => attrs | _ => [] end.

(** The [key] of a node, if it has one. *)
Definition node_key (v : VNode) : option nat := head (omap attr_key (node_attrs v)).

(** The message a rendered row shows: its text, and whether its row class
    is the bot's. *)
Definition message_of_row (v : VNode) : option Message :=
  match v with
  | Elem _ attrs [_; Elem _ _ [Elem _ _ [TextNode body]]] =>
      match head (omap attr_class attrs) with
      | Some cls =>
          if decide (cls = rowClass true) then Some {| text := body; isBot := true |}
          else if decide (cls = rowClass false) then Some {| text := body; isBot := false |}
          else None
      | None => None
      end
  | _ => None
  end.

(** The icons of App's rows replaced by ChatMessage's. *)
Definition chat_icon (i : Icon) : Icon :=
  match i with Send => MessageCircle | Upload => User | i => i end.

Fixpoint map_icons (f : Icon → Icon) (v : VNode) : VNode :=
  match v with
  | Elem tag attrs children => Elem tag attrs (map (map_icons f) children)
  | IconNode i size => IconNode (f i) size
  | TextNode t => TextNode t
  end.

(** [<ChatMessage key={k} ... />]: the [key] a call site would give. *)
Definition keyed (k : nat) (v : VNode) : VNode :=
  match v with Elem tag attrs children => Elem tag (AKey k :: attrs) children | v => v end.

(** A row shows the message it renders. *)
Lemma message_of_row_renderMessage index (message : Message) :
  message_of_row (renderMessage index message) = Some message.
Proof.
  destruct message as [t []]; unfold renderMessage, message_of_row;
    cbn -[rowClass decide]; repeat case_decide; done.
Qed.

(** The keys of the rows are their indices. *)
Lemma renderTranscript_node_keys messages :
  node_key <$> renderTranscript messages = Some <$> seq 0 (length messages).
Proof.
  unfold renderTranscript. rewrite fmap_imap, <- imap_seq_0.
  apply imap_ext. intros i m _. reflexivity.
Qed.

(** ** Properties *)

(** Claim C34: roundtrip.  The rendered message list shows every message
    of the transcript, in order, and each row determines its message: its
    text and whether the bot or the user said it. *)
Theorem renderTranscript_roundtrip (messages : list Message) :
  mapM message_of_row (renderTranscript messages) = Some messages.
Proof. apply mapM_imap_Some, message_of_row_renderMessage. Qed.

(** Claim C17: type.  The message list meets React's requirement on the
    children of a list: every row carries a [key] and no two rows share
    one ([key={index}] numbers them [0 .. n-1]). *)
Theorem renderTranscript_keys_unique (messages : list Message) :
  Forall (λ v, is_Some (node_key v)) (renderTranscript messages) ∧
  NoDup (omap node_key (renderTranscript messages)).
Proof.
  pose proof (renderTranscript_node_keys messages) as Hk. split.
  - apply (Forall_fmap _ is_Some). rewrite Hk. apply Forall_fmap, Forall_true. by eexists.
  - rewrite (omap_fmap_Some _ _ _ Hk). apply NoDup_seq.
Qed.

(** Claim C35: equivalence.  App renders the message at [index] exactly
    as [<ChatMessage key={index} message={message.text}
    isBot={message.isBot} />] would, up to the avatar icons: App shows
    [Send] for the bot and [Upload] for the user where ChatMessage shows
    [MessageCircle] and [User]. *)
Theorem renderMessage_is_ChatMessage_but_icons index (message : Message) :
  map_icons chat_icon (renderMessage index message) =
    keyed index (ChatMessage (text message) (isBot message)) ∧
  renderMessage index message ≠ keyed index (ChatMessage (text message) (isBot message)).
Proof. destruct message as [t []]; split; done. Qed.

(** In every reachable state the upload and send buttons read
    "Processing..." exactly while a handler is suspended at an [await]. *)
Lemma labels_show_pending `{PdfUtilsApi} s :
  reachable s →
  (uploadButtonLabel s = js "Processing..." ↔ pending s ≠ []) ∧
  (sendButtonLabel s = js "Processing..." ↔ pending s ≠ []).
Proof.
  intros Hr. pose proof (inv_busy _ (reachable_inv s Hr)) as Hb.
  unfold uploadButtonLabel, sendButtonLabel. rewrite Hb.
  destruct (decide (pending s ≠ [])) as [Hp|Hp].
  - rewrite bool_decide_eq_true_2 by done. done.
  - rewrite bool_decide_eq_false_2 by done. split; split; done.
Qed.
