(* ===== verification/Page.v ===== *)
(** * Page: the browser around [App] (src/src/App.tsx, lines 15-16, 89-169)

    [App.v] says which events reach a handler through the gating
    functions [uploadButtonDisabled], [inputDisabled] and [submitDisabled].
    This file derives that from the page [renderApp] renders and from
    what a browser does with it.  A [Page] is the state of [App] with the
    two pieces of DOM state the code relies on: the files selected in the
    hidden file input (which the code never resets) and whether the file
    dialog is open.  [deliver] is one user action: the element it targets
    is looked up in the rendered tree by its props ([find_node]), an
    element whose [disabled] prop is set receives nothing, and the
    handler named by its [onChange], [onClick] or [onSubmit] prop runs.

    Browser behaviour modelled (HTML Standard): [input.click()] on a file
    input opens the file dialog; the dialog is modal, so only choosing a
    file or cancelling reaches the page while it is open (the event loop
    still settles promises); choosing fires [change] only when the
    selection differs from the previous one, and cancelling fires no
    [change]; pressing Enter in the text input submits the form through
    its default button, and not when that button is disabled.

    The theorems show that the page refines [App]: every state of a
    reachable page is reachable in [App], so every invariant of [App.v]
    holds of the page; that the gating of [App.dispatch] is the
    [disabled] props of the rendered page; and that choosing again the
    file whose upload failed runs no handler. *)

From stdpp Require Import base list relations strings.
From S2P Require Import Spec2Rocq JsString Promise PdfJs Extract Answer PdfUtils App View.
Import App.

(** ** Queries on the rendered tree *)

(** The first node of [v], in document order, that [p] selects. *)
Fixpoint find_node (p : VNode → bool) (v : VNode) : option VNode :=
  if p v then Some v
  else match v with
       | Elem _ _ children => head (omap (find_node p) children)
       | _ => None
       end.

(** The [disabled] prop: [disabled={false}] leaves the element enabled. *)
Definition is_disabled (v : VNode) : bool :=
  existsb (λ a, match a with ADisabled b => b | _ => false end) (node_attrs v).

Definition attr_onChange (a : Attr) : option Handler :=
  match a with AOnChange h => Some h | _ => None end.
Definition attr_onClick (a : Attr) : option Handler :=
  match a with AOnClick h => Some h | _ => None end.
Definition attr_onSubmit (a : Attr) : option Handler :=
  match a with AOnSubmit h => Some h | _ => None end.

(** Selectors: an element with the given [type], with the given [ref],
    with an [onClick] or [onSubmit] prop. *)
Definition has_type (t : InputType) (v : VNode) : bool :=
  existsb (λ a, match a with AType t' => bool_decide (t' = t) | _ => false end) (node_attrs v).
Definition has_ref (r : Ref) (v : VNode) : bool :=
  existsb (λ a, match a with ARef r' => bool_decide (r' = r) | _ => false end) (node_attrs v).
Definition has_prop (prop : Attr → option Handler) (v : VNode) : bool :=
  if head (omap prop (node_attrs v)) is Some _ then true else false.
Definition clickable : VNode → bool := has_prop attr_onClick.
Definition is_form : VNode → bool := has_prop attr_onSubmit.

(** ** The page state *)

Record Page := {
  app : AppState;
  (** the [files] of the hidden [<input type="file">] *)
  selection : list File;
  (** the file dialog opened by [fileInputRef.current?.click()] *)
  dialogOpen : bool;
}.

Definition initialPage : Page :=
  {| app := initialState; selection := []; dialogOpen := false |}.

Definition setApp (s : AppState) (p : Page) : Page :=
  {| app := s; selection := selection p; dialogOpen := dialogOpen p |}.
Definition setSelection (files : list File) (p : Page) : Page :=
  {| app := app p; selection := files; dialogOpen := dialogOpen p |}.
Definition setDialogOpen (b : bool) (p : Page) : Page :=
  {| app := app p; selection := selection p; dialogOpen := b |}.

(** The DOM event a handler receives: [e.target.value] and
    [e.target.files]. *)
Record DomEvent := { target_value : jsstr; target_files : list File }.

Section Browser.
Context `{PdfUtilsApi}.

(** [fileInputRef.current?.click()]: the element the ref points to, when
    it is an enabled file input, opens the file dialog. *)
Definition clickFileInput (p : Page) : Page :=
  match find_node (has_ref fileInputRef) (renderApp (app p)) with
  | Some el =>
      if has_type type_file el && negb (is_disabled el) then setDialogOpen true p else p
  | None => p
  end.

(** The code a handler prop names, run on an event. *)
Definition run_handler (h : Handler) (ev : DomEvent) (p : Page) : Page :=
  match h with
  | handleFileUploadH => setApp (handleFileUpload_start (target_files ev) (app p)) p
  | clickFileInputH => clickFileInput p
  | handleSubmitH => setApp (handleSubmit_start (app p)) p
  | setQuestionFromInputH => setApp (setQuestion (target_value ev) (app p)) p
  end.

(** Fire an event on an element: nothing reaches a disabled element;
    otherwise the handler of the prop [prop] selects runs, if any. *)
Definition fire (prop : Attr → option Handler) (el : VNode) (ev : DomEvent) (p : Page)
    : option Page :=
  if is_disabled el then None
  else match head (omap prop (node_attrs el)) with
       | Some h => Some (run_handler h ev p)
       | None => Some p
       end.

Definition no_event : DomEvent := {| target_value := []; target_files := [] |}.

(** Submitting the form: the [submit] event fires on the form when its
    default button (its first submit button) is enabled. *)
Definition submit_form (p : Page) : option Page :=
  form ← find_node is_form (renderApp (app p));
  button ← find_node (has_type type_submit) form;
  if is_disabled button then None else fire attr_onSubmit form no_event p.

(** Choosing [f] in the open dialog: the dialog closes; [change] fires on
    the file input only when the selection changes, that is when [f] is
    not the file (the path) already selected. *)
Definition choose_file (f : File) (p : Page) : option Page :=
  let p' := setDialogOpen false p in
  if bool_decide (name <$> selection p = [name f]) then Some p'
  else
    input ← find_node (has_ref fileInputRef) (renderApp (app p));
    fire attr_onChange input {| target_value := []; target_files := [f] |} (setSelection [f] p').
End Browser.

(** What the user, or the event loop, does. *)
Inductive Action :=
| ClickUpload                 (* a click on the "Upload PDF" button *)
| PickFile (f : File)         (* choosing a file in the file dialog *)
| CancelDialog                (* closing the file dialog *)
| TypeQuestion (v : jsstr)    (* editing the question input to hold [v] *)
| ClickSend                   (* a click on the send button *)
| PressEnter                  (* Enter in the question input *)
| SettleP (k : nat) (model : GenerativeModel). (* a suspended handler resumes *)

Section Deliver.
Context `{PdfUtilsApi}.

Definition deliver (a : Action) (p : Page) : option Page :=
  let dom := renderApp (app p) in
  match a with
  | SettleP k model => s ← dispatch (Settle k model) (app p); Some (setApp s p)
  | PickFile f => if dialogOpen p then choose_file f p else None
  | CancelDialog => if dialogOpen p then Some (setDialogOpen false p) else None
  | _ =>
      if dialogOpen p then None
      else match a with
           | ClickUpload =>
               button ← find_node clickable dom; fire attr_onClick button no_event p
           | TypeQuestion v =>
               input ← find_node (has_type type_text) dom;
               fire attr_onChange input {| target_value := v; target_files := [] |} p
           | ClickSend => submit_form p
           | PressEnter =>
               input ← find_node (has_type type_text) dom;
               if is_disabled input then None else submit_form p
           | _ => None
           end
  end.

Inductive page_step : Page → Page → Prop :=
| page_step_action a p p' : deliver a p = Some p' → page_step p p'.

Definition page_reachable (p : Page) : Prop := rtc page_step initialPage p.

Fixpoint run_page (acts : list Action) (p : Page) : Page :=
  match acts with
  | [] => p
  | a :: acts' => run_page acts' (default p (deliver a p))
  end.
End Deliver.

(** ** The elements the browser finds in the rendered page *)

Lemma omap_imap_nil {A B C} (f : nat → A → B) (g : B → option C) l :
  (∀ i x, g (f i x) = None) → omap g (imap f l) = [].
Proof.
  revert f. induction l as [|x l IH]; intros f Hf; [done|].
  rewrite imap_cons. simpl. rewrite Hf. apply IH. intros i y. apply Hf.
Qed.

(** A selector that selects no node of a message row finds nothing in
    the message list. *)
Lemma find_rows p ms rest :
  (∀ i m, find_node p (renderMessage i m) = None) →
  omap (find_node p) (renderTranscript ms ++ rest) = omap (find_node p) rest.
Proof. intros Hp. rewrite omap_app. unfold renderTranscript. by rewrite omap_imap_nil. Qed.

(** Evaluate a query on [renderApp s], skipping the message rows. *)
Ltac search_page :=
  unfold renderApp; cbn -[renderTranscript js];
  rewrite ?find_rows by (intros ? [? []]; reflexivity); cbn -[js].

(** Evaluate, in hypothesis [H], a query on [renderApp s]. *)
Ltac search_page_in H :=
  unfold renderApp in H; cbn -[renderTranscript js] in H;
  rewrite ?find_rows in H by (intros ? [? []]; reflexivity); cbn -[js] in H.

(** Line 107: the upload button and its [onClick]. *)
Lemma page_upload_button s :
  ∃ el, find_node clickable (renderApp s) = Some el ∧
    head (omap attr_onClick (node_attrs el)) = Some clickFileInputH.
Proof. eexists. split; [search_page; reflexivity | done]. Qed.

(** Lines 100-106: the hidden file input, never disabled. *)
Lemma page_file_input s :
  ∃ el, find_node (has_ref fileInputRef) (renderApp s) = Some el ∧
    has_type type_file el = true ∧ is_disabled el = false ∧
    head (omap attr_onChange (node_attrs el)) = Some handleFileUploadH.
Proof. eexists. split; [search_page; reflexivity | done]. Qed.

(** Lines 148-155: the question input and its [onChange]. *)
Lemma page_text_input s :
  ∃ el, find_node (has_type type_text) (renderApp s) = Some el ∧
    head (omap attr_onChange (node_attrs el)) = Some setQuestionFromInputH.
Proof. eexists. split; [search_page; reflexivity | done]. Qed.

(** Lines 146-165: the form, its [onSubmit] and its default button. *)
Lemma page_form s :
  ∃ form button, find_node is_form (renderApp s) = Some form ∧
    find_node (has_type type_submit) form = Some button ∧
    is_disabled form = false ∧
    head (omap attr_onSubmit (node_attrs form)) = Some handleSubmitH.
Proof. eexists _, _. split; [search_page; reflexivity|]. split; [cbn; reflexivity | done]. Qed.

(** ** Delivering an action *)

Section Delivery.
Context `{PdfUtilsApi}.

Lemma fire_handler prop el ev p h :
  head (omap prop (node_attrs el)) = Some h →
  fire prop el ev p = if is_disabled el then None else Some (run_handler h ev p).
Proof. intros Hh. unfold fire. by rewrite Hh. Qed.

Lemma clickFileInput_opens p : clickFileInput p = setDialogOpen true p.
Proof.
  unfold clickFileInput.
  destruct (page_file_input (app p)) as (el & -> & Ht & Hd & _). by rewrite Ht, Hd.
Qed.

Lemma deliver_ClickUpload p :
  dialogOpen p = false →
  ∃ el, find_node clickable (renderApp (app p)) = Some el ∧
    deliver ClickUpload p = if is_disabled el then None else Some (setDialogOpen true p).
Proof.
  intros Hd. destruct (page_upload_button (app p)) as (el & Hel & Hh).
  exists el. split; [done|]. unfold deliver. cbn beta iota zeta. rewrite Hd, Hel. cbn [mbind option_bind].
  rewrite (fire_handler _ _ _ _ _ Hh). simpl. by rewrite clickFileInput_opens.
Qed.

Lemma deliver_TypeQuestion p v :
  dialogOpen p = false →
  ∃ el, find_node (has_type type_text) (renderApp (app p)) = Some el ∧
    deliver (TypeQuestion v) p =
      if is_disabled el then None else Some (setApp (setQuestion v (app p)) p).
Proof.
  intros Hd. destruct (page_text_input (app p)) as (el & Hel & Hh).
  exists el. split; [done|]. unfold deliver. cbn beta iota zeta. rewrite Hd, Hel. cbn [mbind option_bind].
  by rewrite (fire_handler _ _ _ _ _ Hh).
Qed.

Lemma submit_form_default_button p :
  ∃ form button, find_node is_form (renderApp (app p)) = Some form ∧
    find_node (has_type type_submit) form = Some button ∧
    submit_form p =
      if is_disabled button then None else Some (setApp (handleSubmit_start (app p)) p).
Proof.
  destruct (page_form (app p)) as (form & button & Hf & Hb & Hfd & Hh).
  exists form, button. split_and!; [done | done|]. unfold submit_form. rewrite Hf. simpl.
  rewrite Hb. simpl. destruct (is_disabled button); [done|].
  rewrite (fire_handler _ _ _ _ _ Hh), Hfd. done.
Qed.

Lemma deliver_ClickSend p : dialogOpen p = false → deliver ClickSend p = submit_form p.
Proof. intros Hd. unfold deliver. cbn beta iota zeta. by rewrite Hd. Qed.

Lemma deliver_PressEnter p :
  dialogOpen p = false →
  ∃ el, find_node (has_type type_text) (renderApp (app p)) = Some el ∧
    deliver PressEnter p = if is_disabled el then None else submit_form p.
Proof.
  intros Hd. destruct (page_text_input (app p)) as (el & Hel & _).
  exists el. split; [done|]. unfold deliver. cbn beta iota zeta. by rewrite Hd, Hel.
Qed.

Lemma deliver_PickFile p f :
  dialogOpen p = true →
  deliver (PickFile f) p =
    if bool_decide (name <$> selection p = [name f]) then Some (setDialogOpen false p)
    else Some (setApp (handleFileUpload_start [f] (app p)) (setSelection [f] (setDialogOpen false p))).
Proof.
  intros Hd. unfold deliver. cbn beta iota zeta. rewrite Hd. unfold choose_file. case_bool_decide; [done|].
  destruct (page_file_input (app p)) as (el & -> & _ & Hdis & Hh). simpl.
  by rewrite (fire_handler _ _ _ _ _ Hh), Hdis.
Qed.
End Delivery.

(** Name the element a query on [renderApp s] finds in hypothesis [H]. *)
Ltac page_element H := search_page_in H; injection H as <-.

(** ** Properties *)

Section Properties.
Context `{PdfUtilsApi}.

(** Claim C14: equivalence.  The gating of [App.dispatch] is the
    [disabled] props of the rendered page: with the file dialog closed,
    typing in the question input, clicking Send and pressing Enter reach
    the code exactly when [App.dispatch] delivers [ChangeQuestion] and
    [Submit], with the same state after; and a click on the upload button
    opens the file dialog exactly when [uploadButtonDisabled] is false. *)
Theorem page_gating_is_dispatch p v :
  dialogOpen p = false →
  deliver (TypeQuestion v) p = (λ s, setApp s p) <$> dispatch (ChangeQuestion v) (app p) ∧
  deliver ClickSend p = (λ s, setApp s p) <$> dispatch Submit (app p) ∧
  deliver PressEnter p = (λ s, setApp s p) <$> dispatch Submit (app p) ∧
  deliver ClickUpload p =
    if uploadButtonDisabled (app p) then None else Some (setDialogOpen true p).
Proof.
  intros Hd.
  destruct (deliver_TypeQuestion p v Hd) as (i & Hi & ->).
  destruct (deliver_PressEnter p Hd) as (i' & Hi' & ->).
  destruct (deliver_ClickUpload p Hd) as (u & Hu & ->).
  destruct (submit_form_default_button p) as (f & b & Hf & Hb & Hs).
  rewrite deliver_ClickSend, Hs by done.
  page_element Hi. page_element Hi'. page_element Hu. page_element Hf.
  cbn -[js] in Hb. injection Hb as <-. cbn -[js].
  unfold inputDisabled, submitDisabled, uploadButtonDisabled. rewrite !orb_false_r.
  destruct (isLoading _), (truthy (pdfContent _)), (truthy (trim _)); done.
Qed.
End Properties.

(** ** The page refines [App] *)

Section Simulation.
Context `{PdfUtilsApi}.

(** The [disabled] props of the rendered page are the gating functions
    of [App.v]. *)
Lemma page_disabled s :
  (∀ el, find_node clickable (renderApp s) = Some el → is_disabled el = uploadButtonDisabled s) ∧
  (∀ el, find_node (has_type type_text) (renderApp s) = Some el → is_disabled el = inputDisabled s) ∧
  (∀ form button, find_node is_form (renderApp s) = Some form →
     find_node (has_type type_submit) form = Some button → is_disabled button = submitDisabled s).
Proof.
  split_and!; [intros el Hel | intros el Hel | intros f b Hel Hb];
    page_element Hel; [| |cbn -[js] in Hb; injection Hb as <-]; cbn -[js];
    by rewrite orb_false_r.
Qed.

(** While the file dialog is open no handler is suspended. *)
Definition dialog_inv (p : Page) : Prop := dialogOpen p = true → isLoading (app p) = false.

Lemma closed_inv p : dialogOpen p = false → dialog_inv p.
Proof. intros Hd Ho. congruence. Qed.

Lemma deliver_closed a p p' :
  dialogOpen p = true → deliver a p = Some p' →
  (∃ f, a = PickFile f) ∨ a = CancelDialog ∨ ∃ k model, a = SettleP k model.
Proof.
  intros Hd. unfold deliver. cbn beta iota zeta. rewrite Hd.
  destruct a; intros Hdel; eauto; discriminate.
Qed.

(** One action of the page is no step or one step of [App]. *)
Lemma deliver_sim a p p' :
  reachable (app p) → dialog_inv p → deliver a p = Some p' →
  (app p' = app p ∨ app_step (app p) (app p')) ∧ dialog_inv p'.
Proof.
  intros Hr Hinv Hdel. destruct (page_disabled (app p)) as (Hup & Htext & Hsub).
  assert (Hstep : ∀ e, dispatch e (app p) = Some (app p') → app_step (app p) (app p'))
    by (intros e He; by econstructor).
  destruct (dialogOpen p) eqn:Hd;
    [destruct (deliver_closed a p p' Hd Hdel) as [[f ->] | [-> | (k & model & ->)]] |].
  - rewrite deliver_PickFile in Hdel by done. specialize (Hinv Hd).
    case_bool_decide; injection Hdel as <-; split; [by left | done | right | done].
    apply (Hstep (ChooseFiles [f])). simpl. unfold uploadButtonDisabled. by rewrite Hinv.
  - revert Hdel. unfold deliver. cbn beta iota zeta. rewrite Hd. intros [= <-].
    split; [by left | done].
  - revert Hdel. unfold deliver. cbn beta iota zeta.
    destruct (dispatch _ _) as [s|] eqn:Hs; intros [= <-]. split; [right; by apply (Hstep _ Hs)|].
    intros _. exfalso. pose proof (inv_idle _ (reachable_inv _ Hr) (Hinv Hd)) as Hp.
    simpl in Hs. by rewrite Hp in Hs.
  - destruct a as [| | |v| | |k model].
    + destruct (deliver_ClickUpload p Hd) as (u & Hu & Hdel').
      rewrite Hdel', (Hup _ Hu) in Hdel. destruct (uploadButtonDisabled _) eqn:Hb; [done|].
      injection Hdel as <-. split; [by left | intros _; exact Hb].
    + revert Hdel. unfold deliver. cbn beta iota zeta. by rewrite Hd.
    + revert Hdel. unfold deliver. cbn beta iota zeta. by rewrite Hd.
    + destruct (deliver_TypeQuestion p v Hd) as (i & Hi & Hdel').
      rewrite Hdel', (Htext _ Hi) in Hdel. destruct (inputDisabled _) eqn:Hb; [done|].
      injection Hdel as <-. split; [|by apply closed_inv]. right. apply (Hstep (ChangeQuestion v)). simpl. by rewrite Hb.
    + rewrite deliver_ClickSend in Hdel by done.
      destruct (submit_form_default_button p) as (f & b & Hf & Hb & Hs).
      rewrite Hs, (Hsub _ _ Hf Hb) in Hdel. destruct (submitDisabled _) eqn:Hsd; [done|].
      injection Hdel as <-. split; [|by apply closed_inv]. right. apply (Hstep Submit). simpl. by rewrite Hsd.
    + destruct (deliver_PressEnter p Hd) as (i & Hi & Hdel').
      destruct (submit_form_default_button p) as (f & b & Hf & Hb & Hs).
      rewrite Hdel', Hs, (Htext _ Hi), (Hsub _ _ Hf Hb) in Hdel.
      destruct (inputDisabled _), (submitDisabled _) eqn:Hsd; try done.
      injection Hdel as <-. split; [|by apply closed_inv]. right. apply (Hstep Submit). simpl. by rewrite Hsd.
    + revert Hdel. unfold deliver. cbn beta iota zeta.
      destruct (dispatch _ _) as [s|] eqn:Hs; intros [= <-]. split; [right; by apply (Hstep _ Hs)|].
      by apply closed_inv.
Qed.
End Simulation.

(** A run of actions, each delivered. *)
Section Runs.
Context `{PdfUtilsApi}.

Fixpoint page_delivered (acts : list Action) (p : Page) : bool :=
  match acts with
  | [] => true
  | a :: acts' => match deliver a p with Some p' => page_delivered acts' p' | None => false end
  end.

Lemma page_reachable_run acts p :
  page_reachable p → page_delivered acts p = true → page_reachable (run_page acts p).
Proof.
  revert p. induction acts as [|a acts IH]; intros p Hr Hd; [done|]. simpl in *.
  destruct (deliver a p) as [p'|] eqn:Ha; [|discriminate].
  apply IH; [eapply rtc_r; [exact Hr | by econstructor] | done].
Qed.

End Runs.

Section PageProperties.
Context `{PdfUtilsApi}.

(** Claim C13: refinement.  The page refines [App]: the component state
    of every page the user can reach through the browser is a reachable
    state of [App.v], so every invariant proved there (the busy flag, the
    shape of the transcript, the non-blank bubbles, the trimmed document
    text) holds of what the browser shows; and the file dialog is open
    only while no handler is suspended, which is what makes the
    ungated file input safe. *)
Theorem page_refines_app p :
  page_reachable p → reachable (app p) ∧ (dialogOpen p = true → isLoading (app p) = false).
Proof.
  revert p. apply (rtc_ind_r (λ p, reachable (app p) ∧ (dialogOpen p = true → _))).
  { split; [apply rtc_refl | done]. }
  intros p p' _ Hstep [Hr Hinv]. inversion Hstep as [a ? ? Hdel]; subst.
  destruct (deliver_sim a p p' Hr Hinv Hdel) as [[Heq | Hs] Hinv']; split; try done.
  - by rewrite Heq.
  - by eapply rtc_r.
Qed.

End PageProperties.

(** ** Runs of the page on concrete libraries *)

(** The scenario of section 8 through the browser: open the dialog,
    choose the document, type the question, press Enter. *)
Definition sky_page_actions : list Action :=
  [ClickUpload; PickFile sky_file; SettleP 0 sky_model; SettleP 0 sky_model;
   TypeQuestion SKY_QUESTION; PressEnter; SettleP 0 sky_model].

Definition sky_page : Page := @run_page SkyUtils sky_page_actions initialPage.

(** A file that cannot be read at the first attempt, and the same path
    once it can. *)
Definition locked_file : File := {|
  name := js "report.pdf";
  arrayBuffer := throw (js "NotReadableError: The requested file could not be read.") |}.

Definition failed_page : Page :=
  @run_page SkyUtils [ClickUpload; PickFile locked_file; SettleP 0 sky_model] initialPage.

Ltac page_reach := apply page_reachable_run; [apply rtc_refl | vm_compute; reflexivity].

Lemma page_refines_app_witness :
  @page_reachable SkyUtils sky_page ∧ app sky_page = @run SkyUtils sky_events initialState ∧
  @reachable SkyUtils (app sky_page) ∧ (dialogOpen sky_page = true → isLoading (app sky_page) = false).
Proof.
  split; [unfold sky_page; page_reach|]. split; [vm_compute; reflexivity|].
  apply (page_refines_app (H := SkyUtils)). unfold sky_page. page_reach.
Defined.

Lemma page_gating_is_dispatch_witness :
  dialogOpen failed_page = false ∧
  @deliver SkyUtils (TypeQuestion SKY_QUESTION) failed_page =
    (λ s, setApp s failed_page) <$> @dispatch SkyUtils (ChangeQuestion SKY_QUESTION) (app failed_page) ∧
  @deliver SkyUtils ClickSend failed_page =
    (λ s, setApp s failed_page) <$> @dispatch SkyUtils Submit (app failed_page) ∧
  @deliver SkyUtils PressEnter failed_page =
    (λ s, setApp s failed_page) <$> @dispatch SkyUtils Submit (app failed_page) ∧
  @deliver SkyUtils ClickUpload failed_page =
    if uploadButtonDisabled (app failed_page) then None else Some (setDialogOpen true failed_page).
Proof.
  split; [vm_compute; reflexivity|].
  apply (page_gating_is_dispatch (H := SkyUtils)). vm_compute. reflexivity.
Defined.

