(* ===== verification/Console.v ===== *)
(** * Console: the [console.error] calls of the program

    pdfUtils.ts logs in the [catch] blocks of its two functions (lines 29
    and 47), App.tsx in the [catch] blocks of its two handlers (lines 34
    and 71).  A call that may write to the console is modelled in the
    monad [logged] (an error monad over a writer of console entries): the
    entries it wrote, in order, and its settled outcome; a rejection keeps
    the entries written before it.  [extractTextFromPDF_io] and
    [getAnswerFromAI_io] are the two functions of pdfUtils.ts with their
    logging, and their outcomes are [extractTextFromPDF] and
    [getAnswerFromAI] ([extractTextFromPDF_io_outcome],
    [getAnswerFromAI_io_outcome]).  [handleFileUpload_io] and
    [handleSubmit_io] are the console side of one invocation of the two
    handlers of App.tsx (their state side is in [App.v]), calling the two
    functions above.  The theorems say what reaches the console and in
    which order: the cause of a failed extraction, which the caller never
    sees, is logged once; an answer request logs exactly its transport or
    service errors; a failed upload logs the cause, then the opaque
    error. *)

From stdpp Require Import base list list_numbers strings relations.
From Stdlib Require Import ZArith Lia.
From S2P Require Import Spec2Rocq JsString Promise PdfJs Extract Answer PdfUtils App.
Import App.

Local Open Scope Z_scope.
Local Open Scope pdfchat_scope.

(** [console.error(label, error)] *)
Record ConsoleEntry := { console_label : jsstr; console_value : JsError }.

(** What a call wrote to the console, in order, and how it settled. *)
Record logged (A : Type) := Logged { log : list ConsoleEntry; outcome : promise A }.
Arguments Logged {_} _ _.
Arguments log {_} _.
Arguments outcome {_} _.

#[export] Instance logged_ret : MRet logged := λ A x, Logged [] (Resolved x).
#[export] Instance logged_bind : MBind logged := λ A B f m,
  match outcome m with
  | Resolved x => Logged (log m ++ log (f x)) (outcome (f x))
  | Rejected e => Logged (log m) (Rejected e)
  end.

(** An awaited call that writes nothing to the console. *)
Definition quiet {A} (p : promise A) : logged A := Logged [] p.

(** [console.error(label, error)] *)
Definition console_error (label : jsstr) (error : JsError) : logged unit :=
  Logged [{| console_label := label; console_value := error |}] (Resolved tt).

(** [throw new Error(message)] *)
Definition log_throw {A} (message : jsstr) : logged A := Logged [] (throw message).

(** [try { body } catch (error) { handler(error) }] *)
Definition log_try_catch {A} (body : logged A) (handler : JsError → logged A) : logged A :=
  match outcome body with
  | Resolved _ => body
  | Rejected e => Logged (log body ++ log (handler e)) (outcome (handler e))
  end.

Definition EXTRACT_LOG : jsstr := js "Error extracting text from PDF:".
Definition ANSWER_LOG : jsstr := js "Error getting answer from AI:".
Definition UPLOAD_LOG : jsstr := js "Error uploading PDF:".
Definition SUBMIT_LOG : jsstr := js "Error getting answer:".

Definition entry (label : jsstr) (error : JsError) : ConsoleEntry :=
  {| console_label := label; console_value := error |}.

Section Io.
Context {pdfjs : PdfJsLib}.

(** pdfUtils.ts lines 13-32, with the [console.error] of line 29. *)
Definition extractTextFromPDF_io (pdfBuffer : ArrayBuffer) : logged jsstr :=
  log_try_catch (quiet (extract_try pdfBuffer))
    (λ error, console_error EXTRACT_LOG error;; log_throw EXTRACT_ERROR).

(** pdfUtils.ts lines 34-50, with the [console.error] of line 47. *)
Definition getAnswerFromAI_io (model : GenerativeModel) (context question : jsstr)
    : logged jsstr :=
  log_try_catch (quiet (answer_try model context question))
    (λ error, console_error ANSWER_LOG error;; mret FALLBACK).

(** App.tsx lines 23-37, the console side of [handleFileUpload]: the two
    awaits, then the [console.error] of the [catch]. *)
Definition handleFileUpload_io (file : File) : logged unit :=
  log_try_catch
    (buffer ← quiet (arrayBuffer file);
     text ← extractTextFromPDF_io buffer;
     mret tt)
    (λ error, console_error UPLOAD_LOG error).

(** App.tsx lines 61-78, the console side of [handleSubmit]: the await,
    then the [console.error] of the [catch]. *)
Definition handleSubmit_io (model : GenerativeModel) (context question : jsstr)
    : logged unit :=
  log_try_catch
    (answer ← getAnswerFromAI_io model context question; mret tt)
    (λ error, console_error SUBMIT_LOG error).
End Io.

(** ** Lemmas *)

Section Properties.
Context {pdfjs : PdfJsLib}.

(** The [catch] of [extractTextFromPDF], case by case. *)
Lemma extractTextFromPDF_io_cases pdfBuffer :
  extractTextFromPDF_io pdfBuffer =
    match extract_try pdfBuffer with
    | Resolved t => Logged [] (Resolved t)
    | Rejected e => Logged [entry EXTRACT_LOG e] (throw EXTRACT_ERROR)
    end.
Proof.
  unfold extractTextFromPDF_io, log_try_catch. simpl. by destruct (extract_try pdfBuffer).
Qed.

(** The [catch] of [getAnswerFromAI], case by case. *)
Lemma getAnswerFromAI_io_cases model context question :
  getAnswerFromAI_io model context question =
    match answer_try model context question with
    | Resolved t => Logged [] (Resolved t)
    | Rejected e => Logged [entry ANSWER_LOG e] (Resolved FALLBACK)
    end.
Proof.
  unfold getAnswerFromAI_io, log_try_catch. simpl.
  by destruct (answer_try model context question).
Qed.

(** Logging does not change how the two functions settle: their outcomes
    are the functions of [Extract.v] and [Answer.v]. *)
Lemma extractTextFromPDF_io_outcome pdfBuffer :
  outcome (extractTextFromPDF_io pdfBuffer) = extractTextFromPDF pdfBuffer.
Proof.
  rewrite extractTextFromPDF_io_cases. unfold extractTextFromPDF.
  by destruct (extract_try pdfBuffer).
Qed.

Lemma getAnswerFromAI_io_outcome model context question :
  outcome (getAnswerFromAI_io model context question) =
    getAnswerFromAI model context question.
Proof.
  rewrite getAnswerFromAI_io_cases. unfold getAnswerFromAI.
  by destruct (answer_try model context question).
Qed.

(** ** Properties *)

(** Claim C30: error.  When the document opens and page [i] is the first
    page that cannot be read, extraction writes one console entry, the
    [EXTRACT_LOG] label with that page's own error, and then rejects with
    the opaque error: the cause reaches the console and nothing else. *)
Theorem extract_logs_first_failure pdfBuffer pdf i e :
  getDocument pdfBuffer = Resolved pdf →
  1 <= i <= numPages pdf →
  (∀ j, 1 <= j < i → ∃ t, read_page pdf j = Resolved t) →
  read_page pdf i = Rejected e →
  extractTextFromPDF_io pdfBuffer = Logged [entry EXTRACT_LOG e] (throw EXTRACT_ERROR).
Proof.
  intros Hdoc Hi Hbefore Hpage. rewrite extractTextFromPDF_io_cases.
  by erewrite extract_try_first_failure.
Qed.

(** Claim C33: functional.  What [getAnswerFromAI] writes and returns on
    every path: a rejected request or a throwing [text()] writes one
    [ANSWER_LOG] entry with that error and falls back; an answered request
    writes nothing, and an empty text falls back silently. *)
Theorem getAnswerFromAI_io_paths model context question :
  getAnswerFromAI_io model context question =
    match generateContent model (prompt context question) with
    | Rejected e => Logged [entry ANSWER_LOG e] (Resolved FALLBACK)
    | Resolved r =>
        match Answer.text (response r) with
        | Rejected e => Logged [entry ANSWER_LOG e] (Resolved FALLBACK)
        | Resolved t => Logged [] (Resolved (t ||js FALLBACK))
        end
    end.
Proof.
  rewrite getAnswerFromAI_io_cases. unfold answer_try.
  destruct (generateContent _ _) as [r|e]; [|reflexivity]. simpl.
  by destruct (Answer.text (response r)).
Qed.

(** The [catch] of [handleSubmit] (App.tsx line 71)
    is dead: [getAnswerFromAI] never rejects, so a submission never logs
    [SUBMIT_LOG]; what it logs is what [getAnswerFromAI] logged. *)
Theorem handleSubmit_never_logs_own_label model context question :
  handleSubmit_io model context question =
    Logged (log (getAnswerFromAI_io model context question)) (Resolved tt) ∧
  SUBMIT_LOG ∉ console_label <$> log (handleSubmit_io model context question).
Proof.
  assert (Hio : handleSubmit_io model context question =
    Logged (log (getAnswerFromAI_io model context question)) (Resolved tt)).
  { unfold handleSubmit_io. rewrite getAnswerFromAI_io_cases.
    by destruct (answer_try _ _ _). }
  split; [done|]. rewrite Hio, getAnswerFromAI_io_cases. simpl.
  destruct (answer_try _ _ _); simpl; [apply not_elem_of_nil|].
  rewrite list_elem_of_singleton. by vm_compute.
Qed.

(** Claim C18: functional.  The console output of one upload, in order: a
    file that cannot be read logs its error under [UPLOAD_LOG]; a failed
    extraction logs its cause under [EXTRACT_LOG], then the opaque error
    under [UPLOAD_LOG]; a successful one logs nothing. *)
Theorem upload_console_output file :
  log (handleFileUpload_io file) =
    match arrayBuffer file with
    | Rejected e => [entry UPLOAD_LOG e]
    | Resolved b =>
        match extract_try b with
        | Resolved _ => []
        | Rejected e => [entry EXTRACT_LOG e; entry UPLOAD_LOG (mkError EXTRACT_ERROR)]
        end
    end.
Proof.
  unfold handleFileUpload_io, log_try_catch.
  destruct (arrayBuffer file) as [b|e]; [|reflexivity].
  cbn [quiet outcome mbind logged_bind]. rewrite extractTextFromPDF_io_cases.
  by destruct (extract_try b).
Qed.
End Properties.

(** ** The two sides of an upload *)

Section Upload.
Context {pdfjs : PdfJsLib}.

Lemma upload_messages_differ : [botMessage UPLOAD_OK] ≠ [botMessage UPLOAD_ERROR].
Proof. by vm_compute. Qed.

(** Claim C19: functional.  The screen and the console agree on every
    upload from an idle reachable state, App composed with the real
    [pdfUtils]: the upload reports success exactly when it writes nothing
    to the console, and reports the error exactly when its last console
    entry is the [UPLOAD_LOG] of the [catch] of [handleFileUpload]. *)
Theorem upload_screen_matches_console s file files model :
  @reachable pdfUtils s → isLoading s = false →
  let shown := messages (@run pdfUtils [ChooseFiles (file :: files); Settle 0 model; Settle 0 model] s) in
  (shown = [botMessage UPLOAD_OK] ↔ log (handleFileUpload_io file) = []) ∧
  (shown = [botMessage UPLOAD_ERROR] ↔
     ∃ e, last (log (handleFileUpload_io file)) = Some (entry UPLOAD_LOG e)).
Proof.
  intros Hr Hl. cbn zeta. rewrite (upload_run (H := pdfUtils)) by done.
  unfold handleFileUpload_io, log_try_catch.
  pose proof upload_messages_differ as Hd.
  destruct (arrayBuffer file) as [b|e]; cbn [mbind promise_bind quiet outcome logged_bind log].
  - change (@api_extract pdfUtils b) with (extractTextFromPDF b).
    rewrite extractTextFromPDF_io_cases. unfold extractTextFromPDF.
    destruct (extract_try b); simpl; naive_solver.
  - simpl. naive_solver.
Qed.
End Upload.

(** ** Concrete runs

    The buffer [[0]] of [DemoPdf] opens a two-page document whose second
    page has no content stream: the console gets the content-stream error
    of page 2, the caller the opaque error. *)

Lemma extract_logs_first_failure_witness :
  @extractTextFromPDF_io DemoPdf [Byte.x00] =
    Logged [entry EXTRACT_LOG (mkError (js "Bad content stream."))] (throw EXTRACT_ERROR).
Proof.
  apply (extract_logs_first_failure (pdfjs := DemoPdf) [Byte.x00] demo_bad 2).
  - reflexivity.
  - simpl. lia.
  - intros j Hj. assert (j = 1) as -> by lia. eexists. reflexivity.
  - reflexivity.
Defined.

(** An upload of an empty file: pdf.js cannot open it, the screen shows
    the error and the console ends with the [UPLOAD_LOG] entry. *)
Lemma upload_screen_matches_console_witness :
  let shown := messages (@run SkyUtils [ChooseFiles [empty_file]; Settle 0 sky_model;
                                        Settle 0 sky_model] initialState) in
  (shown = [botMessage UPLOAD_OK] ↔
     log (@handleFileUpload_io (MemPdf sky_decode) empty_file) = []) ∧
  (shown = [botMessage UPLOAD_ERROR] ↔
     ∃ e, last (log (@handleFileUpload_io (MemPdf sky_decode) empty_file)) =
            Some (entry UPLOAD_LOG e)).
Proof.
  apply (upload_screen_matches_console (pdfjs := MemPdf sky_decode) initialState
           empty_file [] sky_model); [apply rtc_refl | reflexivity].
Defined.
