(* ===== verification/Effect.v ===== *)
(** * Effect: the scroll effect of [App] (src/src/App.tsx, lines 16, 85-87, 123-124)

    [useEffect(() => { messagesEndRef.current?.scrollIntoView(...) },
    [messages])] runs after a commit of [App] whenever the [messages]
    dependency is not [Object.is] the one of the previous run, and once
    after the first commit.  [Object.is] compares arrays by identity,
    and every [setMessages] of the code stores a new array (an array
    literal or a spread), so the model keeps, beside the page, an
    identity for the array the [messages] cell holds: a fresh one for
    every action whose handler part calls [setMessages]
    ([action_writes]), the same one otherwise.  [commit] runs the effect
    when the identity differs from the one of the last run; the effect
    finds the marker [<div ref={messagesEndRef} />] in the rendered page
    and scrolls it into view, which is recorded, in [scrolls], as the
    transcript shown above it at that moment.

    Each handler part calls [setMessages] at most once, so the effect
    runs at most once per action whether React batches the updates of a
    part into one commit or not.  The effect sets no state: the page the
    component shows is exactly the one of [Page.v]. *)

From stdpp Require Import base list relations strings.
From S2P Require Import Spec2Rocq JsString Promise PdfJs Extract Answer PdfUtils App View Page.
Import App.

(** Lines 85-87: [messagesEndRef.current?.scrollIntoView(...)] on the
    element the ref is attached to in the rendered page, if any. *)
Definition scrollIntoViewEffect (s : AppState) : list (list Message) :=
  match find_node (has_ref messagesEndRef) (renderApp s) with
  | Some _ => [messages s]
  | None => []
  end.

(** The mounted component: the page, the identity of the array in the
    [messages] cell, the identity the effect last ran with ([None] before
    the first commit), and the transcripts scrolled into view, in
    order. *)
Record Mounted := {
  page : Page;
  messagesId : nat;
  effectDeps : option nat;
  scrolls : list (list Message);
}.

(** A commit: the effect runs when its dependency changed. *)
Definition commit (m : Mounted) : Mounted :=
  if bool_decide (effectDeps m = Some (messagesId m)) then m
  else {| page := page m; messagesId := messagesId m; effectDeps := Some (messagesId m);
          scrolls := scrolls m ++ scrollIntoViewEffect (app (page m)) |}.

(** The first render and commit of [App]. *)
Definition mount : Mounted :=
  commit {| page := initialPage; messagesId := 0; effectDeps := None; scrolls := [] |}.

(** The handler parts resumed by a settled promise that call
    [setMessages]: a rejected [file.arrayBuffer()] (line 35), every
    settled extraction (line 27 or 35), every settled request (line 63;
    line 72 is dead). *)
Definition resume_writes (c : Suspended) : bool :=
  match c with
  | UploadAwait file => if arrayBuffer file is Rejected _ then true else false
  | ExtractAwait _ => true
  | SubmitAwait _ _ => true
  end.

(** The actions whose handler calls [setMessages]: a submission runs
    [handleSubmit], which calls it on both branches (lines 46 and 58);
    choosing a file runs only the part of [handleFileUpload] before its
    first [await] (lines 19-22), typing only [setQuestion]. *)
Definition action_writes (a : Action) (p : Page) : bool :=
  match a with
  | ClickSend | PressEnter => true
  | SettleP k _ => if pending (app p) !! k is Some c then resume_writes c else false
  | _ => false
  end.

Section Mounted.
Context `{PdfUtilsApi}.

(** One action on the mounted component, then a commit; the array the
    cell holds gets a fresh identity when the action called
    [setMessages]. *)
Definition react_deliver (a : Action) (m : Mounted) : option Mounted :=
  p' ← deliver a (page m);
  Some (commit {| page := p';
                  messagesId := if action_writes a (page m) then S (messagesId m) else messagesId m;
                  effectDeps := effectDeps m; scrolls := scrolls m |}).

Inductive mounted_step : Mounted → Mounted → Prop :=
| mounted_step_action a m m' : react_deliver a m = Some m' → mounted_step m m'.

Definition mounted_reachable (m : Mounted) : Prop := rtc mounted_step mount m.

Fixpoint run_mounted (acts : list Action) (m : Mounted) : Mounted :=
  match acts with
  | [] => m
  | a :: acts' => run_mounted acts' (default m (react_deliver a m))
  end.
End Mounted.

(** ** Lemmas *)

(** The marker [<div ref={messagesEndRef} />] is rendered in every
    state, below the rows of the transcript: the optional chaining
    [current?.] never skips the call once the component is mounted. *)
Lemma scrollIntoViewEffect_marker s : scrollIntoViewEffect s = [messages s].
Proof. unfold scrollIntoViewEffect. search_page. reflexivity. Qed.

(** A commit with a changed dependency scrolls the current transcript
    into view. *)
Lemma commit_changed m :
  effectDeps m ≠ Some (messagesId m) →
  commit m = {| page := page m; messagesId := messagesId m; effectDeps := Some (messagesId m);
                scrolls := scrolls m ++ [messages (app (page m))] |}.
Proof.
  intros Hne. unfold commit. rewrite bool_decide_eq_false_2 by done.
  by rewrite scrollIntoViewEffect_marker.
Qed.

Section Delivery.
Context `{PdfUtilsApi}.

Lemma settle_keeps_messages k model p p' :
  deliver (SettleP k model) p = Some p' → action_writes (SettleP k model) p = false →
  messages (app p') = messages (app p).
Proof.
  unfold deliver, action_writes. cbn.
  destruct (pending (app p) !! k) as [[file| |]|]; try discriminate. cbn.
  unfold handleFileUpload_buffer. destruct (arrayBuffer file); [|discriminate].
  intros [= <-] _. reflexivity.
Qed.

(** An action whose handler does not call [setMessages] leaves the
    transcript as it was. *)
Lemma deliver_keeps_messages a p p' :
  deliver a p = Some p' → action_writes a p = false → messages (app p') = messages (app p).
Proof.
  intros Hd Hw. destruct (dialogOpen p) eqn:Ho.
  - destruct (deliver_closed a p p' Ho Hd) as [[f ->] | [-> | (k & model & ->)]].
    + rewrite deliver_PickFile in Hd by done.
      case_bool_decide; injection Hd as <-; reflexivity.
    + unfold deliver in Hd. rewrite Ho in Hd. by injection Hd as <-.
    + by apply (settle_keeps_messages k model p p').
  - destruct a as [| f | | v | | | k model]; simpl in Hw; try discriminate.
    + destruct (deliver_ClickUpload p Ho) as (el & _ & Hc). rewrite Hc in Hd.
      destruct (is_disabled el); [discriminate | by injection Hd as <-].
    + unfold deliver in Hd. by rewrite Ho in Hd.
    + unfold deliver in Hd. by rewrite Ho in Hd.
    + destruct (deliver_TypeQuestion p v Ho) as (el & _ & Hc). rewrite Hc in Hd.
      destruct (is_disabled el); [discriminate | by injection Hd as <-].
    + by apply (settle_keeps_messages k model p p').
Qed.
End Delivery.

Section Invariant.
Context `{PdfUtilsApi}.

(** One action on a committed component: the page moves as [deliver]
    says, the effect's dependency is again the current array, and the
    transcript is scrolled into view exactly when the action called
    [setMessages]. *)
Lemma react_deliver_spec a m m' :
  effectDeps m = Some (messagesId m) → react_deliver a m = Some m' →
  deliver a (page m) = Some (page m') ∧ effectDeps m' = Some (messagesId m') ∧
  scrolls m' = scrolls m ++ (if action_writes a (page m) then [messages (app (page m'))] else []).
Proof.
  intros Hdeps. unfold react_deliver.
  destruct (deliver a (page m)) as [p'|] eqn:Hd; [|discriminate]. intros [= <-].
  destruct (action_writes a (page m)).
  - rewrite commit_changed by (simpl; rewrite Hdeps; intros [= ?]; lia). done.
  - unfold commit. simpl. rewrite Hdeps, bool_decide_eq_true_2 by done.
    simpl. by rewrite app_nil_r.
Qed.

(** The invariant of the mounted component. *)
Definition mounted_inv (m : Mounted) : Prop :=
  page_reachable (page m) ∧ effectDeps m = Some (messagesId m) ∧
  last (scrolls m) = Some (messages (app (page m))).

Lemma mount_inv : mounted_inv mount.
Proof.
  unfold mount. rewrite commit_changed by done. split; [apply rtc_refl | done].
Qed.

Lemma react_deliver_inv a m m' :
  mounted_inv m → react_deliver a m = Some m' → mounted_inv m'.
Proof.
  intros (Hr & Hdeps & Hlast) Hrd.
  destruct (react_deliver_spec a m m' Hdeps Hrd) as (Hd & Hdeps' & Hs).
  split; [eapply rtc_r; [exact Hr | by econstructor] |]. split; [done|].
  rewrite Hs. destruct (action_writes a (page m)) eqn:Hw; [apply last_snoc|].
  rewrite app_nil_r, Hlast. by rewrite (deliver_keeps_messages a (page m) (page m') Hd Hw).
Qed.

Lemma mounted_reachable_inv m : mounted_reachable m → mounted_inv m.
Proof.
  revert m. apply (rtc_ind_r mounted_inv); [apply mount_inv|].
  intros m m' _ Hs Hi. inversion Hs as [a ? ? Hrd]; subst. by apply (react_deliver_inv a m m').
Qed.

Fixpoint mounted_delivered (acts : list Action) (m : Mounted) : bool :=
  match acts with
  | [] => true
  | a :: acts' =>
      match react_deliver a m with Some m' => mounted_delivered acts' m' | None => false end
  end.

Lemma mounted_reachable_run acts m :
  mounted_reachable m → mounted_delivered acts m = true →
  mounted_reachable (run_mounted acts m).
Proof.
  revert m. induction acts as [|a acts IH]; intros m Hr Hd; [done|]. simpl in *.
  destruct (react_deliver a m) as [m'|] eqn:Ha; [|discriminate].
  apply IH; [eapply rtc_r; [exact Hr | by econstructor] | done].
Qed.
End Invariant.

(** ** Properties *)

Section Properties.
Context `{PdfUtilsApi}.

(** Claim C21: invariant.  In every state of the mounted component the
    page is one the browser reaches without the effect (the effect sets
    no state), and the last thing the effect scrolled into view is the
    end of the transcript currently shown: every change of the
    transcript is followed by a scroll to its newest message. *)
Theorem scroll_shows_current_transcript m :
  mounted_reachable m →
  page_reachable (page m) ∧ last (scrolls m) = Some (messages (app (page m))).
Proof. intros (Hr & _ & Hlast)%mounted_reachable_inv. done. Qed.

End Properties.

(** ** Two failed uploads in a row

    [locked_file] cannot be read; a second file, under another path,
    cannot be read either.  The second failure stores a new array that
    holds the same single error message: the transcript's value does not
    change, and the effect still scrolls. *)

Definition locked_copy : File := {|
  name := js "report (1).pdf";
  arrayBuffer := throw (js "NotReadableError: The requested file could not be read.") |}.

Definition retry_actions : list Action :=
  [ClickUpload; PickFile locked_file; SettleP 0 sky_model; ClickUpload; PickFile locked_copy].

Definition retry_failed : Mounted :=
  @run_mounted SkyUtils (retry_actions ++ [SettleP 0 sky_model]) mount.

Ltac mounted_reach := apply mounted_reachable_run; [apply rtc_refl | vm_compute; reflexivity].

Lemma scroll_shows_current_transcript_witness :
  @mounted_reachable SkyUtils retry_failed ∧
  (@page_reachable SkyUtils (page retry_failed) ∧
   last (scrolls retry_failed) = Some (messages (app (page retry_failed)))).
Proof.
  assert (Hr : @mounted_reachable SkyUtils retry_failed) by (unfold retry_failed; mounted_reach).
  split; [exact Hr | apply (scroll_shows_current_transcript (H := SkyUtils)), Hr].
Defined.

