(* ===== verification/Gating.v ===== *)
(** * Gating: what the [disabled] attributes of App.tsx carry

    Neither handler of App.tsx checks [isLoading] before it starts:
    [handleFileUpload] (lines 18-22) and [handleSubmit] (lines 43-59)
    run whenever their event arrives.  That at most one of them is in
    flight is ensured only by the browser, which delivers no event to
    the upload button, the question input or the send button while they
    are disabled (lines 109, 153, 158); [App.dispatch] models that
    gating.  [dispatch_ungated] delivers every event to its handler, as
    the page would without those attributes, and is not a model of the
    program: it is the comparison that shows which invariant of
    [App.app_inv] the attributes carry.  Two uploads started back to
    back under it leave the busy flag cleared while the second
    extraction is still in flight. *)

From stdpp Require Import base list relations strings.
From S2P Require Import Spec2Rocq JsString Promise PdfJs Extract Answer PdfUtils App.
Import App.

Section Ungated.
Context `{PdfUtilsApi}.

(** Every event reaches its handler; settling is as in [dispatch]. *)
Definition dispatch_ungated (e : Event) (s : AppState) : option AppState :=
  match e with
  | ChangeQuestion v => Some (setQuestion v s)
  | ChooseFiles files => Some (handleFileUpload_start files s)
  | Submit => Some (handleSubmit_start s)
  | Settle _ _ => dispatch e s
  end.

Fixpoint run_ungated (es : list Event) (s : AppState) : AppState :=
  match es with
  | [] => s
  | e :: es' => run_ungated es' (default s (dispatch_ungated e s))
  end.

(** A read file suspends the upload at its extraction. *)
Lemma buffer_read file buffer s :
  arrayBuffer file = Resolved buffer →
  handleFileUpload_buffer file s = setPending (pending s ++ [ExtractAwait buffer]) s.
Proof. intros Hb. unfold handleFileUpload_buffer. by rewrite Hb. Qed.

(** A settled extraction clears the busy flag and leaves the other
    suspended handlers as they are. *)
Lemma extract_settled_isLoading buffer s : isLoading (handleFileUpload_extract buffer s) = false.
Proof. by destruct (handleFileUpload_extract_cases buffer s) as [(t & _ & ->) | ->]. Qed.

Lemma extract_settled_pending buffer s :
  pending (handleFileUpload_extract buffer s) = pending s.
Proof. by destruct (handleFileUpload_extract_cases buffer s) as [(t & _ & ->) | ->]. Qed.

#[local] Arguments handleFileUpload_buffer : simpl never.
#[local] Arguments handleFileUpload_extract : simpl never.

(** Two uploads of [file], then three settled promises. *)
Definition double_upload (file : File) (model : GenerativeModel) : list Event :=
  [ChooseFiles [file]; ChooseFiles [file]; Settle 0 model; Settle 0 model; Settle 0 model].

(** Claim C28: safety.  The mutual exclusion of the handlers rests on
    the [disabled] attributes alone.  With them, a second upload started
    while the first is in flight is not delivered and the run ends idle;
    without them, the first upload's [finally] clears [isLoading] while
    the second extraction is still awaited, which breaks the invariant
    [app_inv] (the controls would be enabled with a handler in
    flight). *)
Theorem gating_carries_busy_flag file buffer model :
  arrayBuffer file = Resolved buffer →
  pending (run (double_upload file model) initialState) = [] ∧
  isLoading (run_ungated (double_upload file model) initialState) = false ∧
  pending (run_ungated (double_upload file model) initialState) = [ExtractAwait buffer] ∧
  ¬ app_inv (run_ungated (double_upload file model) initialState).
Proof.
  intros Hb. unfold double_upload, uploadButtonDisabled. cbn.
  repeat (rewrite ?(buffer_read file buffer), ?extract_settled_isLoading,
            ?extract_settled_pending by done; cbn).
  split; [done|]. split; [done|]. split; [done|]. intros [Hbusy].
  repeat (rewrite ?(buffer_read file buffer), ?extract_settled_isLoading,
            ?extract_settled_pending in Hbusy by done; cbn in Hbusy).
  discriminate Hbusy.
Qed.
End Ungated.

Lemma gating_carries_busy_flag_witness :
  arrayBuffer sky_file = Resolved [Byte.x25; Byte.x50; Byte.x44; Byte.x46] ∧
  pending (@run SkyUtils (double_upload sky_file sky_model) initialState) = [] ∧
  isLoading (@run_ungated SkyUtils (double_upload sky_file sky_model) initialState) = false ∧
  pending (@run_ungated SkyUtils (double_upload sky_file sky_model) initialState) =
    [ExtractAwait [Byte.x25; Byte.x50; Byte.x44; Byte.x46]] ∧
  ¬ @app_inv (@run_ungated SkyUtils (double_upload sky_file sky_model) initialState).
Proof.
  split; [reflexivity|]. apply (gating_carries_busy_flag (H := SkyUtils)). reflexivity.
Defined.
